(** * timekeep: the session manager, the reconciliation sweep, the
      process-existence probes and the Windows service control loop.

    A shallow embedding of
      cmd/service/internal/sessions/sessions.go
      cmd/service/internal/sessions/sessions_linux.go
      cmd/service/internal/sessions/sessions_windows.go
      cmd/service/service_windows.go
    Every Go function is a Rocq function of the same name.  Functions that
    touch the session map, the repositories, the logger or the clock are
    written in a small state monad over a [World]; each one is executed
    atomically (the mutex [sm.Mu] is not modelled, the development is about
    sequential executions). *)

From Stdlib Require Import ZArith Ascii SpecFloat.
From stdpp Require Import gmap strings list fin_maps.

Local Open Scope Z_scope.
Local Open Scope string_scope.
Local Open Scope list_scope.

(** ** Process-existence probes *)

Module Probe.

(** [syscall.Errno] values on Linux. *)
Definition Errno := Z.
Definition EPERM : Errno := 1.
Definition ESRCH : Errno := 3.

(** Win32 error codes and the exit code of a process that has not exited. *)
Definition ERROR_ACCESS_DENIED : Z := 5.
Definition ERROR_INVALID_PARAMETER : Z := 87.
Definition STILL_ACTIVE : Z := 259.
Definition PROCESS_QUERY_INFORMATION : Z := 1024.

(** Go's [uint32(pid)] on a 64-bit [int]: the low 32 bits. *)
Definition uint32 (pid : Z) : Z := pid mod 2 ^ 32.

Section OS.

(** The operating system, as the probes see it.  [None] is Go's [nil]
    error. *)
Variable Kill : Z -> Z -> option Errno.

Variable Handle : Type.
Variable OpenProcess : Z -> bool -> Z -> Handle + Z.
Variable GetExitCodeProcess : Handle -> Z + Z.

Variable Process : Type.
Variable FindProcess : Z -> Process + Z.
Variable Signal : Process -> Z -> option Z.

(** sessions_linux.go *)
Definition isProcessRunning_linux (pid : Z) : bool :=
  match Kill pid 0 with
  | None => true
  | Some err => if decide (err = ESRCH) then false else true
  end.

(** sessions_windows.go; the deferred [CloseHandle] has no effect on the
    result. *)
Definition isProcessRunning_windows (pid : Z) : bool :=
  match OpenProcess PROCESS_QUERY_INFORMATION false (uint32 pid) with
  | inr _ => false
  | inl handle =>
      match GetExitCodeProcess handle with
      | inr _ => false
      | inl exitCode => bool_decide (exitCode = 259)
      end
  end.

(** The probe at the end of sessions.go. *)
Definition isProcessRunning (pid : Z) : bool :=
  match FindProcess pid with
  | inr _ => false
  | inl proc =>
      match Signal proc 0 with
      | None => true
      | Some _ => false
      end
  end.

End OS.

End Probe.

(** ** The session manager *)

Module Sessions.

(** [time.Time] as a count of nanoseconds; the zero [time.Time] is [0]. *)
Definition Time := Z.

(** Go's [float64] is IEEE 754 binary64: 53 bits of precision, rounding to
    nearest even, here in the standard library's [spec_float]. *)
Definition float64 : Type := spec_float.

(** [float64(n)] for an integer [n]. *)
Definition float64_of_int (n : Z) : float64 := binary_normalize 53 1024 n 0 false.

(** [int64(f)]: [f] without its fraction.  (Go leaves the conversion of
    infinities and NaN to the platform; durations never reach them.) *)
Definition int64_of_float64 (f : float64) : Z :=
  match f with
  | S754_finite s m e =>
      let a := if (0 <=? e)%Z then Z.pos m * 2 ^ e else Z.pos m / 2 ^ (- e) in
      if s then - a else a
  | _ => 0
  end.

(** [t.Sub(u)], a [time.Duration]: the nanoseconds from [u] to [t],
    saturated at the ends of [int64]. *)
Definition Sub (t u : Time) : Z :=
  Z.max (- 2 ^ 63) (Z.min (2 ^ 63 - 1) (t - u)).

(** [d.Seconds()]: [float64(d / Second) + float64(d % Second) / 1e9], with
    Go's division and remainder, truncated towards zero. *)
Definition Seconds (d : Z) : float64 :=
  let sec := Z.quot d 1000000000 in
  let nsec := Z.rem d 1000000000 in
  SFadd 53 1024 (float64_of_int sec)
    (SFdiv 53 1024 (float64_of_int nsec) (float64_of_int 1000000000)).

(** [int64(endTime.Sub(startTime).Seconds())] *)
Definition duration_seconds (startTime endTime : Time) : Z :=
  int64_of_float64 (Seconds (Sub endTime startTime)).

Arguments duration_seconds : simpl never.

Record Tracked := mkTracked {
  Category : string;
  Project : string;
  PIDs : gset Z;
  StartAt : Time;
  LastSeen : Time
}.

Definition set_Category (c : string) (t : Tracked) : Tracked :=
  mkTracked c (Project t) (PIDs t) (StartAt t) (LastSeen t).
Definition set_Project (p : string) (t : Tracked) : Tracked :=
  mkTracked (Category t) p (PIDs t) (StartAt t) (LastSeen t).
Definition set_PIDs (s : gset Z) (t : Tracked) : Tracked :=
  mkTracked (Category t) (Project t) s (StartAt t) (LastSeen t).
Definition set_StartAt (x : Time) (t : Tracked) : Tracked :=
  mkTracked (Category t) (Project t) (PIDs t) x (LastSeen t).
Definition set_LastSeen (x : Time) (t : Tracked) : Tracked :=
  mkTracked (Category t) (Project t) (PIDs t) (StartAt t) x.

(** [&Tracked{PIDs: make(map[int]struct{})}] *)
Definition new_Tracked : Tracked := mkTracked "" "" ∅ 0 0.

(** [database.AddToSessionHistoryParams] *)
Record HistoryRow := mkHistoryRow {
  ProgramName : string;
  StartTime : Time;
  EndTime : Time;
  DurationSeconds : Z
}.

(** The calls the manager makes on the three repository interfaces. *)
Inductive RepoCall :=
| CreateActiveSession (name : string) (startTime : Time)
| GetActiveSession (name : string)
| AddToSessionHistory (row : HistoryRow)
| UpdateLifetime (name : string) (seconds : Z)
| RemoveActiveSession (name : string).

Definition call_name (c : RepoCall) : string :=
  match c with
  | CreateActiveSession n _ => n
  | GetActiveSession n => n
  | AddToSessionHistory row => ProgramName row
  | UpdateLifetime n _ => n
  | RemoveActiveSession n => n
  end.

Inductive error := ErrNoRows | ErrStorage.

Inductive result (A : Type) :=
| Ok (a : A)
| Err (e : error).
Arguments Ok {A} a.
Arguments Err {A} e.

(** One constructor per [logger.Printf] line of sessions.go. *)
Inductive LogLine :=
| InfoAlreadyTracked (pid : Z) (name : string)
| ErrorCreatingActive (name : string) (e : error)
| InfoCreated (name : string) (now : Time)
| InfoAddedPID (pid : Z) (name : string)
| InfoNoActive (name : string) (pid : Z)
| InfoNotTracked (pid : Z) (name : string)
| ErrorGettingActive (e : error)
| ErrorCreatingHistory (name : string) (e : error)
| ErrorUpdatingLifetime (name : string) (e : error)
| ErrorRemovingActive (name : string) (e : error)
| InfoMoved (name : string) (duration : Z)
| InfoAllGone (name : string).

(** Everything the manager reads or writes.
    - [Programs] is [sm.Programs];
    - [active], [history] and [lifetime] are the three persisted tables
      behind the repositories;
    - [calls] records every repository call that was attempted, oldest
      first, and [faulty i] says whether the [i]-th attempted call fails in
      the storage layer;
    - [clock i] is the value of the [i]-th [time.Now()], [reads] counts
      them;
    - [logged] is the logger's output, oldest first. *)
Record World := mkWorld {
  Programs : gmap string Tracked;
  active : gmap string Time;
  history : list HistoryRow;
  lifetime : gmap string Z;
  calls : list RepoCall;
  faulty : nat -> bool;
  clock : nat -> Time;
  reads : nat;
  logged : list LogLine
}.

(** [NewSessionManager()], with the storage and the environment given. *)
Definition NewSessionManager (act : gmap string Time) (hist : list HistoryRow)
    (life : gmap string Z) (flt : nat -> bool) (clk : nat -> Time) : World :=
  mkWorld ∅ act hist life [] flt clk 0 [].

(** *** The state monad *)

Definition M (A : Type) : Type := World -> A * World.

Definition ret {A} (a : A) : M A := fun w => (a, w).
Definition bind {A B} (m : M A) (k : A -> M B) : M B :=
  fun w => let (a, w') := m w in k a w'.

Notation "x <- m ;; k" := (bind m (fun x => k))
  (at level 62, m at next level, right associativity).
Notation "m ;;; k" := (bind m (fun _ => k))
  (at level 62, right associativity).

Definition exec {A} (m : M A) (w : World) : World := snd (m w).

Definition get_program (name : string) : M (option Tracked) :=
  fun w => (Programs w !! name, w).

Definition put_program (name : string) (t : Tracked) : M unit :=
  fun w => (tt, mkWorld (<[name := t]> (Programs w)) (active w) (history w)
                  (lifetime w) (calls w) (faulty w) (clock w) (reads w) (logged w)).

Definition delete_program (name : string) : M unit :=
  fun w => (tt, mkWorld (delete name (Programs w)) (active w) (history w)
                  (lifetime w) (calls w) (faulty w) (clock w) (reads w) (logged w)).

Definition time_Now : M Time :=
  fun w => (clock w (reads w),
            mkWorld (Programs w) (active w) (history w) (lifetime w) (calls w)
              (faulty w) (clock w) (S (reads w)) (logged w)).

Definition Printf (l : LogLine) : M unit :=
  fun w => (tt, mkWorld (Programs w) (active w) (history w) (lifetime w) (calls w)
                  (faulty w) (clock w) (reads w) (logged w ++ [l])).

(** Records the attempt of a repository call and answers whether the storage
    layer fails it. *)
Definition attempt (c : RepoCall) : M bool :=
  fun w => (faulty w (length (calls w)),
            mkWorld (Programs w) (active w) (history w) (lifetime w) (calls w ++ [c])
              (faulty w) (clock w) (reads w) (logged w)).

Definition set_active (f : gmap string Time -> gmap string Time) : M unit :=
  fun w => (tt, mkWorld (Programs w) (f (active w)) (history w) (lifetime w) (calls w)
                  (faulty w) (clock w) (reads w) (logged w)).

Definition set_history (f : list HistoryRow -> list HistoryRow) : M unit :=
  fun w => (tt, mkWorld (Programs w) (active w) (f (history w)) (lifetime w) (calls w)
                  (faulty w) (clock w) (reads w) (logged w)).

Definition set_lifetime (f : gmap string Z -> gmap string Z) : M unit :=
  fun w => (tt, mkWorld (Programs w) (active w) (history w) (f (lifetime w)) (calls w)
                  (faulty w) (clock w) (reads w) (logged w)).

(** *** The repositories *)

(** Modelled from the spec: the Active-session repository
    ([internal/repository], not among the sources), section 6:
    [createActiveSession(name, startTime)],
    [getActiveSession(name) -> startTime | notFound],
    [removeActiveSession(name)].  Any call may also fail in the storage
    layer ("a single repository call errors"). *)
Definition a_CreateActiveSession (name : string) (startTime : Time) : M (result unit) :=
  failed <- attempt (CreateActiveSession name startTime) ;;
  if failed : bool then ret (Err ErrStorage)
  else set_active (insert name startTime) ;;; ret (Ok tt).

Definition a_GetActiveSession (name : string) : M (result Time) :=
  failed <- attempt (GetActiveSession name) ;;
  if failed : bool then ret (Err ErrStorage)
  else fun w => (match active w !! name with
                 | Some startTime => Ok startTime
                 | None => Err ErrNoRows
                 end, w).

Definition a_RemoveActiveSession (name : string) : M (result unit) :=
  failed <- attempt (RemoveActiveSession name) ;;
  if failed : bool then ret (Err ErrStorage)
  else set_active (delete name) ;;; ret (Ok tt).

(** Modelled from the spec: the History repository, section 6:
    [appendHistory({name, start, end, durationSeconds})], append-only. *)
Definition h_AddToSessionHistory (row : HistoryRow) : M (result unit) :=
  failed <- attempt (AddToSessionHistory row) ;;
  if failed : bool then ret (Err ErrStorage)
  else set_history (fun h => h ++ [row]) ;;; ret (Ok tt).

(** Modelled from the spec: the Program catalog repository, section 6:
    [updateLifetime(name, deltaSeconds)]; "lifetime is incremented by each
    committed session's duration". *)
Definition pr_UpdateLifetime (name : string) (seconds : Z) : M (result unit) :=
  failed <- attempt (UpdateLifetime name seconds) ;;
  if failed : bool then ret (Err ErrStorage)
  else set_lifetime (alter (Z.add seconds) name) ;;; ret (Ok tt).

(** *** strings.ToLower *)

(** The ASCII range of Go's [strings.ToLower]: 'A'..'Z' become 'a'..'z',
    every other byte is kept.  (Go also maps upper-case letters outside
    ASCII; program names are handled here as ASCII strings.) *)
Definition lower_byte (c : ascii) : ascii :=
  let n := nat_of_ascii c in
  if ((65 <=? n)%nat && (n <=? 90)%nat)%bool then ascii_of_nat (n + 32) else c.

Fixpoint ToLower (s : string) : string :=
  match s with
  | EmptyString => EmptyString
  | String c rest => String (lower_byte c) (ToLower rest)
  end.

(** *** sessions.go *)

(** [sm.Programs] is never [nil] in a manager built by [NewSessionManager],
    so the first test of the Go function does nothing. *)
Definition EnsureProgram (name category project : string) : M unit :=
  let name := ToLower name in
  o <- get_program name ;;
  match o with
  | None => put_program name (mkTracked category project ∅ 0 0)
  | Some tracked =>
      let tracked :=
        if decide (Category tracked ≠ category) then set_Category category tracked
        else tracked in
      let tracked :=
        if decide (Project tracked ≠ project) then set_Project project tracked
        else tracked in
      put_program name tracked
  end.

(** [t] is a pointer shared with the map: the fields written through it are
    written to the entry, which is what the [put_program] after the last
    write does here. *)
Definition CreateSession (processName : string) (pid : Z) : M unit :=
  o <- get_program processName ;;
  let t := match o with Some t => t | None => new_Tracked end in
  if decide (pid ∈ PIDs t) then
    now <- time_Now ;;
    put_program processName (set_LastSeen now t) ;;;
    Printf (InfoAlreadyTracked pid processName)
  else
    let t := set_PIDs ({[pid]} ∪ PIDs t) t in
    now <- time_Now ;;
    let t := if decide (size (PIDs t) = 1%nat) then set_StartAt now t else t in
    let t := set_LastSeen now t in
    put_program processName t ;;;
    if decide (size (PIDs t) = 1%nat) then
      r <- a_CreateActiveSession processName now ;;
      match r with
      | Err e => Printf (ErrorCreatingActive processName e)
      | Ok _ => Printf (InfoCreated processName now)
      end
    else Printf (InfoAddedPID pid processName).

Definition MoveSessionToHistory (processName : string) : M unit :=
  r <- a_GetActiveSession processName ;;
  match r with
  | Err e => Printf (ErrorGettingActive e)
  | Ok startTime =>
      endTime <- time_Now ;;
      let duration := duration_seconds startTime endTime in
      let archivedSession := mkHistoryRow processName startTime endTime duration in
      r <- h_AddToSessionHistory archivedSession ;;
      match r with
      | Err e => Printf (ErrorCreatingHistory processName e)
      | Ok _ =>
          r <- pr_UpdateLifetime processName duration ;;
          match r with
          | Err e => Printf (ErrorUpdatingLifetime processName e)
          | Ok _ => ret tt
          end ;;;
          r <- a_RemoveActiveSession processName ;;
          match r with
          | Err e => Printf (ErrorRemovingActive processName e)
          | Ok _ => ret tt
          end ;;;
          Printf (InfoMoved processName duration)
      end
  end.

Definition EndSession (processName : string) (pid : Z) : M unit :=
  o <- get_program processName ;;
  match o with
  | None => Printf (InfoNoActive processName pid)
  | Some t =>
      if decide (pid ∈ PIDs t) then
        let t := set_PIDs (PIDs t ∖ {[pid]}) t in
        now <- time_Now ;;
        let t := set_LastSeen now t in
        put_program processName t ;;;
        if decide (size (PIDs t) = 0%nat) then
          MoveSessionToHistory processName ;;;
          delete_program processName
        else ret tt
      else Printf (InfoNotTracked pid processName)
  end.

(** The inner loop of [ValidateActiveSessions]: [allPIDsGone] stays true
    until a PID is found running, where the loop breaks. *)
Fixpoint allPIDsGone (isProcessRunning : Z -> bool) (pids : list Z) : bool :=
  match pids with
  | [] => true
  | pid :: rest =>
      if isProcessRunning pid then false else allPIDsGone isProcessRunning rest
  end.

(** The first loop, over the entries of [sm.Programs] in the order the
    [range] delivers them. *)
Fixpoint scan_programs (isProcessRunning : Z -> bool)
    (entries : list (string * Tracked)) (programsToClean : list string)
    : M (list string) :=
  match entries with
  | [] => ret programsToClean
  | (programName, tracked) :: rest =>
      if decide (size (PIDs tracked) = 0%nat) then
        scan_programs isProcessRunning rest programsToClean
      else if allPIDsGone isProcessRunning (elements (PIDs tracked)) then
        Printf (InfoAllGone programName) ;;;
        scan_programs isProcessRunning rest (programsToClean ++ [programName])
      else scan_programs isProcessRunning rest programsToClean
  end.

(** The second loop. *)
Fixpoint clean_programs (programsToClean : list string) : M unit :=
  match programsToClean with
  | [] => ret tt
  | programName :: rest =>
      MoveSessionToHistory programName ;;;
      delete_program programName ;;;
      clean_programs rest
  end.

(** Go does not fix the order in which [range] visits a map:
    [ValidateActiveSessions_in] runs the sweep for a given enumeration of
    the entries, [ValidateActiveSessions] for the one of [map_to_list]. *)
Definition ValidateActiveSessions_in (isProcessRunning : Z -> bool)
    (entries : list (string * Tracked)) : M unit :=
  programsToClean <- scan_programs isProcessRunning entries [] ;;
  clean_programs programsToClean.

Definition ValidateActiveSessions (isProcessRunning : Z -> bool) : M unit :=
  fun w => ValidateActiveSessions_in isProcessRunning (map_to_list (Programs w)) w.

(** *** Summaries used in the properties *)

(** The entry that [CreateSession name pid] leaves in the map when it runs
    at time [now] and found the entry [t] (or made [t] anew); see
    [CreateSession_Programs]. *)
Definition after_create (pid : Z) (now : Time) (t : Tracked) : Tracked :=
  if decide (pid ∈ PIDs t) then set_LastSeen now t
  else if decide (PIDs t = ∅) then mkTracked (Category t) (Project t) {[pid]} now now
  else mkTracked (Category t) (Project t) ({[pid]} ∪ PIDs t) (StartAt t) now.

(** The history rows of a program, oldest first. *)
Definition rows_of (name : string) (h : list HistoryRow) : list HistoryRow :=
  filter (λ row, ProgramName row = name) h.

(** *** Notification sequences *)

(** A notification of the process monitor, delivered to [CreateSession]
    (started) or [EndSession] (stopped). *)
Inductive Event :=
| Started (name : string) (pid : Z)
| Stopped (name : string) (pid : Z).

Definition deliver (e : Event) : M unit :=
  match e with
  | Started name pid => CreateSession name pid
  | Stopped name pid => EndSession name pid
  end.

Fixpoint deliver_all (evs : list Event) : M unit :=
  match evs with
  | [] => ret tt
  | e :: rest => deliver e ;;; deliver_all rest
  end.

Fixpoint create_all (name : string) (pids : list Z) : M unit :=
  match pids with
  | [] => ret tt
  | pid :: rest => CreateSession name pid ;;; create_all name rest
  end.

(** The live-PID set recorded for a name: the [PIDs] of its entry, empty
    when the map has no entry. *)
Definition live_pids (name : string) (w : World) : gset Z :=
  match Programs w !! name with
  | Some t => PIDs t
  | None => ∅
  end.

(** [pid] was started for [name] and not stopped afterwards. *)
Definition started_not_stopped (name : string) (pid : Z) (evs : list Event) : Prop :=
  ∃ before after,
    evs = before ++ Started name pid :: after ∧ Stopped name pid ∉ after.

(** The repository calls attempted by a step from [w] to [w']. *)
Definition new_calls (w w' : World) : list RepoCall :=
  drop (length (calls w)) (calls w').

Definition new_logged (w w' : World) : list LogLine :=
  drop (length (logged w)) (logged w').

(** *** Interleavings of notifications and sweep ticks *)

(** What reaches the manager while the service runs: a notification of the
    process monitor, or a tick of the session validator with the answers the
    probe gives during that tick. *)
Inductive Action :=
| Notify (e : Event)
| Tick (isProcessRunning : Z -> bool).

Definition perform (a : Action) : M unit :=
  match a with
  | Notify e => deliver e
  | Tick isProcessRunning => ValidateActiveSessions isProcessRunning
  end.

Fixpoint perform_all (actions : list Action) : M unit :=
  match actions with
  | [] => ret tt
  | a :: rest => perform a ;;; perform_all rest
  end.

(** Every entry of the map has a live PID. *)
Definition no_idle_entry (w : World) : Prop :=
  ∀ name t, Programs w !! name = Some t → PIDs t ≠ ∅.

(** The ActiveSession table mirrors the map: a row for every entry, holding
    the entry's [StartAt], and no other row. *)
Definition mirrored (w : World) : Prop :=
  ∀ name, active w !! name = StartAt <$> Programs w !! name.

(** *** Sample environments *)

Definition no_faults : nat -> bool := fun _ => false.
Definition all_faults : nat -> bool := fun _ => true.
Definition fault_at (i : nat) : nat -> bool := fun j => bool_decide (j = i).

(** A clock that advances two minutes between two readings. *)
Definition two_minutes : nat -> Time := fun i => Z.of_nat i * 120000000000.

(** A fresh manager over empty tables, "browser" being in the catalog. *)
Definition fresh (flt : nat -> bool) : World :=
  NewSessionManager ∅ [] {["browser" := 0]} flt two_minutes.

(** [CreateSession("browser", 5)] on a fresh manager. *)
Definition browser_open (flt : nat -> bool) : World :=
  exec (CreateSession "browser" 5) (fresh flt).

End Sessions.

(** ** The Windows service control loop *)

Module Service.

Import Sessions.

(** [svc.Cmd], [svc.State], [svc.Accepted] and [svc.Status] of
    golang.org/x/sys/windows/svc, as far as [Execute] uses them. *)
Inductive Cmd := Stop | Pause | Continue | Interrogate | Shutdown | OtherCmd (n : Z).

Inductive State := StateStopped | StartPending | StopPending | Running | Paused.

Definition AcceptStop : Z := 1.
Definition AcceptPauseAndContinue : Z := 2.
Definition AcceptShutdown : Z := 4.

Record Status := mkStatus { St : State; Accepts : Z }.

Record ChangeRequest := mkChangeRequest { Command : Cmd; CurrentStatus : Status }.

Definition cmdsAccepted : Z :=
  Z.lor (Z.lor AcceptStop AcceptShutdown) AcceptPauseAndContinue.

(** [sql.NullString] and the rows of [GetAllPrograms]. *)
Record NullString := mkNullString { String_ : string; Valid : bool }.

Record Program := mkProgram {
  Name : string;
  ProgramCategory : NullString;
  ProgramProject : NullString
}.

(** [s.eventCtrl.Config.WakaTime.Enabled] and [...Wakapi.Enabled]. *)
Record Config := mkConfig { WakaTime_Enabled : bool; Wakapi_Enabled : bool }.

Inductive ServiceLog :=
| InfoEntered
| ErrorSyncLogFile (e : error)
| ErrorGetPrograms
| InfoStopSignal
| InfoPausing
| InfoResuming
| ErrorUnexpected (c : Cmd).

(** The service: the session manager with its repositories ([sessions]),
    the event controller's configuration and tasks, the other background
    tasks, the statuses sent on the [status] channel (oldest first) and the
    service log. *)
Record timekeepService := mkService {
  sessions : World;
  config : Config;
  heartbeats : bool;
  monitor : bool;
  listener : bool;
  validator : bool;
  storage_open : bool;
  cancelled : bool;
  statuses : list Status;
  service_log : list ServiceLog
}.

Definition with_sessions (f : World -> World) (s : timekeepService) : timekeepService :=
  mkService (f (sessions s)) (config s) (heartbeats s) (monitor s) (listener s)
    (validator s) (storage_open s) (cancelled s) (statuses s) (service_log s).

Definition send_status (st : Status) (s : timekeepService) : timekeepService :=
  mkService (sessions s) (config s) (heartbeats s) (monitor s) (listener s)
    (validator s) (storage_open s) (cancelled s) (statuses s ++ [st]) (service_log s).

Definition Println (l : ServiceLog) (s : timekeepService) : timekeepService :=
  mkService (sessions s) (config s) (heartbeats s) (monitor s) (listener s)
    (validator s) (storage_open s) (cancelled s) (statuses s) (service_log s ++ [l]).

Definition set_heartbeats (b : bool) (s : timekeepService) : timekeepService :=
  mkService (sessions s) (config s) b (monitor s) (listener s)
    (validator s) (storage_open s) (cancelled s) (statuses s) (service_log s).

Definition set_monitor (b : bool) (s : timekeepService) : timekeepService :=
  mkService (sessions s) (config s) (heartbeats s) b (listener s)
    (validator s) (storage_open s) (cancelled s) (statuses s) (service_log s).

(** [go s.transport.Listen(...)] and [go s.startSessionValidator(...)] *)
Definition start_tasks (s : timekeepService) : timekeepService :=
  mkService (sessions s) (config s) (heartbeats s) (monitor s) true
    true (storage_open s) (cancelled s) (statuses s) (service_log s).

(** Modelled from the spec: [closeService] (cmd/service/service.go, not among
    the sources), "close durable storage handle". *)
Definition closeService (s : timekeepService) : timekeepService :=
  mkService (sessions s) (config s) (heartbeats s) (monitor s) (listener s)
    (validator s) false (cancelled s) (statuses s) (service_log s).

(** [cancel()] of [serviceCtx]: the listener and the validator stop. *)
Definition cancel (s : timekeepService) : timekeepService :=
  mkService (sessions s) (config s) (heartbeats s) (monitor s) false
    false (storage_open s) true (statuses s) (service_log s).

Section EventController.

(** The process monitor is an external collaborator: what its initial pass
    and its resynchronisation do to the session manager (through
    [CreateSession] and [EndSession]) is left open. *)
Variable initial_pass : list string -> World -> World.
Variable resync : World -> World.

(** The log file of the service: [None] when [s.logger.LogFile] is [nil],
    otherwise the error that its [Sync] returns, if any. *)
Variable LogFile : option (option error).

(** Modelled from the spec: the methods of the event controller
    (internal/events, not among the sources), section 6: the process
    monitor exposes [startInitial(programNames)],
    [startContinuous(cancelSignal, programNames)], [stop()],
    [resync(programNames)], the heartbeat emitter [start(cancelSignal)]
    and [stop()]. *)
Definition StartPreMonitor (toTrack : list string) (s : timekeepService) :=
  with_sessions (initial_pass toTrack) s.
Definition StartMonitor (toTrack : list string) (s : timekeepService) :=
  set_monitor true s.
Definition StopProcessMonitor (s : timekeepService) := set_monitor false s.
Definition RefreshProcessMonitor (s : timekeepService) :=
  set_monitor true (with_sessions resync s).
Definition MonCancel (s : timekeepService) := set_monitor false s.
Definition StartHeartbeats (s : timekeepService) := set_heartbeats true s.
Definition StopHeartbeats (s : timekeepService) := set_heartbeats false s.
Definition WakaCancel (s : timekeepService) := set_heartbeats false s.

(** service_windows.go, [Execute]: the seeding loop. *)
Fixpoint seed (programs : list Program) (toTrack : list string) : M (list string) :=
  match programs with
  | [] => ret toTrack
  | program :: rest =>
      let category :=
        if Valid (ProgramCategory program) then String_ (ProgramCategory program)
        else "" in
      let project :=
        if Valid (ProgramProject program) then String_ (ProgramProject program)
        else "" in
      EnsureProgram (Name program) category project ;;;
      seed rest (toTrack ++ [Name program])
  end.

(** [Execute] up to the main loop.  [catalog] is the answer of
    [s.prRepo.GetAllPrograms]; the result is [Some (false, 1)] when the
    function returns before the loop. *)
Definition startup (catalog : result (list Program)) (s : timekeepService)
    : timekeepService * option (bool * Z) :=
  let s := Println InfoEntered s in
  let s :=
    match LogFile with
    | Some (Some err) => Println (ErrorSyncLogFile err) s
    | _ => s
    end in
  let s := send_status (mkStatus StartPending 0) s in
  match catalog with
  | Err _ =>
      let s := Println ErrorGetPrograms s in
      let s := send_status (mkStatus StateStopped 0) s in
      (s, Some (false, 1))
  | Ok programs =>
      let s :=
        if decide (0 < length programs)%nat then
          let (toTrack, w) := seed programs [] (sessions s) in
          let s := with_sessions (fun _ => w) s in
          let s := StartPreMonitor toTrack s in
          StartMonitor toTrack s
        else s in
      let s :=
        if (WakaTime_Enabled (config s) || Wakapi_Enabled (config s))%bool
        then StartHeartbeats s else s in
      let s := start_tasks s in
      let s := send_status (mkStatus Running cmdsAccepted) s in
      (s, None)
  end.

(** One iteration of the main loop, for the request [c] received on [r];
    the boolean is [true] when the iteration ends with [break loop]. *)
Definition handle (c : ChangeRequest) (s : timekeepService) : timekeepService * bool :=
  match Command c with
  | Interrogate => (send_status (CurrentStatus c) s, false)
  | Stop | Shutdown =>
      let s := send_status (mkStatus StopPending 0) s in
      let s := Println InfoStopSignal s in
      let s := closeService s in
      let s := MonCancel s in
      let s := WakaCancel s in
      let s := cancel s in
      (s, true)
  | Pause =>
      let s := send_status (mkStatus Paused cmdsAccepted) s in
      let s := Println InfoPausing s in
      let s := if WakaTime_Enabled (config s) then StopHeartbeats s else s in
      let s := StopProcessMonitor s in
      (s, false)
  | Continue =>
      let s := send_status (mkStatus Running cmdsAccepted) s in
      let s := Println InfoResuming s in
      let s := RefreshProcessMonitor s in
      (s, false)
  | OtherCmd _ => (Println (ErrorUnexpected (Command c)) s, false)
  end.

(** The main loop over the requests that arrive on [r]; [None] when the
    loop is still waiting after the last of them. *)
Fixpoint mainloop (r : list ChangeRequest) (s : timekeepService)
    : timekeepService * option (bool * Z) :=
  match r with
  | [] => (s, None)
  | c :: rest =>
      let (s, stop) := handle c s in
      if stop : bool then (s, Some (false, 0)) else mainloop rest s
  end.

Definition Execute (catalog : result (list Program)) (r : list ChangeRequest)
    (s : timekeepService) : timekeepService * option (bool * Z) :=
  match startup catalog s with
  | (s, Some code) => (s, Some code)
  | (s, None) => mainloop r s
  end.

End EventController.

(** A service that has not run yet, over a fresh session manager. *)
Definition new_service (cfg : Config) (w : World) : timekeepService :=
  mkService w cfg false false false false true false [] [].

End Service.

(** ** The Linux daemon *)

Module Daemon.

Import Sessions Service.

(** The lines [Manage] writes to the service log. *)
Inductive ManageLog := InfoStartingManage | InfoShutdownSignal.

(** What a call of [Manage] leaves behind: the service, the lines it logged
    (oldest first), and the two values it returns ([None] is a [nil]
    error). *)
Record Managed := mkManaged {
  service : timekeepService;
  manage_log : list ManageLog;
  answer : string;
  failure : option error
}.

Definition usage : string :=
  "Usage: timekeep install | remove | start | stop | status".

Section Manage.

(** The answers of the daemon manager ([s.daemon], an external package) to
    the five commands. *)
Variable Install Remove Start Stop Status : string * option error.

(** The Linux [Manage] (the second part of sessions.go).  [args] is
    [os.Args], [catalog] the answer of [GetAllPrograms].  Without a command
    the function blocks until the termination signal arrives; the model
    gives what it returns then, the signal having cancelled [serviceCtx]
    ([cancel]).  The programs are seeded as in the Windows [Execute], but
    there is no initial pass of the monitor. *)
Definition Manage (args : list string) (catalog : result (list Program))
    (s : timekeepService) : Managed :=
  match args with
  | _ :: command :: _ =>
      let (status, err) :=
        if decide (command = "install") then Install
        else if decide (command = "remove") then Remove
        else if decide (command = "start") then Start
        else if decide (command = "stop") then Stop
        else if decide (command = "status") then Status
        else (usage, None) in
      mkManaged s [InfoStartingManage] status err
  | _ =>
      match catalog with
      | Err e =>
          mkManaged s [InfoStartingManage] "ERROR: Failed to get programs" (Some e)
      | Ok programs =>
          let s :=
            if decide (0 < length programs)%nat then
              let (toTrack, w) := seed programs [] (sessions s) in
              let s := with_sessions (fun _ => w) s in
              StartMonitor toTrack s
            else s in
          let s :=
            if (WakaTime_Enabled (config s) || Wakapi_Enabled (config s))%bool
            then StartHeartbeats s else s in
          let s := start_tasks s in
          let s := cancel s in
          let s := closeService s in
          mkManaged s [InfoStartingManage; InfoShutdownSignal]
            "INFO: Daemon stopped." None
      end
  end.

End Manage.

End Daemon.

(** ** The integrations in the configuration (the CLI service) *)

Module CLI.

(** [s.Config] of the CLI service, as far as the functions below use it
    (the type is declared in internal/config). *)
Record Config := mkConfig {
  WakaTime_Enabled : bool;
  WakaTime_APIKey : string;
  WakaTime_CLIPath : string;
  WakaTime_GlobalProject : string;
  Wakapi_Enabled : bool;
  Wakapi_APIKey : string;
  Wakapi_Server : string;
  Wakapi_GlobalProject : string;
  PollInterval : string;
  PollGrace : Z
}.

(** The errors the functions return: the four [fmt.Errorf] messages and the
    error of [saveAndNotify]. *)
Inductive CLIError :=
| WakaTimeKeyRequired
| CLIPathRequired
| WakapiKeyRequired
| ServerRequired
| SaveFailed.

(** The CLI service: its configuration and the configurations that were
    handed to [saveAndNotify], oldest first. *)
Record CLIService := mkCLIService {
  Config_ : Config;
  saved : list Config
}.

Definition set_Config (c : Config) (s : CLIService) : CLIService :=
  mkCLIService c (saved s).

(** Assignments to the fields of the configuration. *)
Definition set_WakaTime_Enabled (b : bool) (c : Config) : Config :=
  mkConfig b (WakaTime_APIKey c) (WakaTime_CLIPath c) (WakaTime_GlobalProject c)
    (Wakapi_Enabled c) (Wakapi_APIKey c) (Wakapi_Server c)
    (Wakapi_GlobalProject c) (PollInterval c) (PollGrace c).
Definition set_WakaTime_APIKey (x : string) (c : Config) : Config :=
  mkConfig (WakaTime_Enabled c) x (WakaTime_CLIPath c) (WakaTime_GlobalProject c)
    (Wakapi_Enabled c) (Wakapi_APIKey c) (Wakapi_Server c)
    (Wakapi_GlobalProject c) (PollInterval c) (PollGrace c).
Definition set_WakaTime_CLIPath (x : string) (c : Config) : Config :=
  mkConfig (WakaTime_Enabled c) (WakaTime_APIKey c) x (WakaTime_GlobalProject c)
    (Wakapi_Enabled c) (Wakapi_APIKey c) (Wakapi_Server c)
    (Wakapi_GlobalProject c) (PollInterval c) (PollGrace c).
Definition set_WakaTime_GlobalProject (x : string) (c : Config) : Config :=
  mkConfig (WakaTime_Enabled c) (WakaTime_APIKey c) (WakaTime_CLIPath c) x
    (Wakapi_Enabled c) (Wakapi_APIKey c) (Wakapi_Server c)
    (Wakapi_GlobalProject c) (PollInterval c) (PollGrace c).
Definition set_Wakapi_Enabled (b : bool) (c : Config) : Config :=
  mkConfig (WakaTime_Enabled c) (WakaTime_APIKey c) (WakaTime_CLIPath c)
    (WakaTime_GlobalProject c) b (Wakapi_APIKey c) (Wakapi_Server c)
    (Wakapi_GlobalProject c) (PollInterval c) (PollGrace c).
Definition set_Wakapi_APIKey (x : string) (c : Config) : Config :=
  mkConfig (WakaTime_Enabled c) (WakaTime_APIKey c) (WakaTime_CLIPath c)
    (WakaTime_GlobalProject c) (Wakapi_Enabled c) x (Wakapi_Server c)
    (Wakapi_GlobalProject c) (PollInterval c) (PollGrace c).
Definition set_Wakapi_Server (x : string) (c : Config) : Config :=
  mkConfig (WakaTime_Enabled c) (WakaTime_APIKey c) (WakaTime_CLIPath c)
    (WakaTime_GlobalProject c) (Wakapi_Enabled c) (Wakapi_APIKey c) x
    (Wakapi_GlobalProject c) (PollInterval c) (PollGrace c).
Definition set_Wakapi_GlobalProject (x : string) (c : Config) : Config :=
  mkConfig (WakaTime_Enabled c) (WakaTime_APIKey c) (WakaTime_CLIPath c)
    (WakaTime_GlobalProject c) (Wakapi_Enabled c) (Wakapi_APIKey c)
    (Wakapi_Server c) x (PollInterval c) (PollGrace c).
Definition set_PollInterval (x : string) (c : Config) : Config :=
  mkConfig (WakaTime_Enabled c) (WakaTime_APIKey c) (WakaTime_CLIPath c)
    (WakaTime_GlobalProject c) (Wakapi_Enabled c) (Wakapi_APIKey c)
    (Wakapi_Server c) (Wakapi_GlobalProject c) x (PollGrace c).
Definition set_PollGrace (x : Z) (c : Config) : Config :=
  mkConfig (WakaTime_Enabled c) (WakaTime_APIKey c) (WakaTime_CLIPath c)
    (WakaTime_GlobalProject c) (Wakapi_Enabled c) (Wakapi_APIKey c)
    (Wakapi_Server c) (Wakapi_GlobalProject c) (PollInterval c) x.

Section Save.

(** Whether saving a configuration and notifying the service fails. *)
Variable save_fails : Config -> bool.

(** [saveAndNotify] is not among the sources: it is taken to act on the
    configuration the service holds when it is called, and to fail or not. *)
Definition saveAndNotify (s : CLIService) : CLIService * option CLIError :=
  (mkCLIService (Config_ s) (saved s ++ [Config_ s]),
   if save_fails (Config_ s) then Some SaveFailed else None).

Definition EnableWakaTime (apiKey path : string) (s : CLIService)
    : CLIService * option CLIError :=
  if WakaTime_Enabled (Config_ s) then (s, None)
  else
    let s :=
      if decide (apiKey ≠ "") then set_Config (set_WakaTime_APIKey apiKey (Config_ s)) s
      else s in
    if decide (WakaTime_APIKey (Config_ s) = "") then (s, Some WakaTimeKeyRequired)
    else
      let s :=
        if decide (path ≠ "") then set_Config (set_WakaTime_CLIPath path (Config_ s)) s
        else s in
      if decide (WakaTime_CLIPath (Config_ s) = "") then (s, Some CLIPathRequired)
      else
        let s := set_Config (set_WakaTime_Enabled true (Config_ s)) s in
        saveAndNotify s.

Definition DisableWakaTime (s : CLIService) : CLIService * option CLIError :=
  if negb (WakaTime_Enabled (Config_ s)) then (s, None)
  else
    let s := set_Config (set_WakaTime_Enabled false (Config_ s)) s in
    saveAndNotify s.

Definition EnableWakapi (apiKey server : string) (s : CLIService)
    : CLIService * option CLIError :=
  if Wakapi_Enabled (Config_ s) then (s, None)
  else
    let s :=
      if decide (apiKey ≠ "") then set_Config (set_Wakapi_APIKey apiKey (Config_ s)) s
      else s in
    if decide (Wakapi_APIKey (Config_ s) = "") then (s, Some WakapiKeyRequired)
    else
      let s :=
        if decide (server ≠ "") then set_Config (set_Wakapi_Server server (Config_ s)) s
        else s in
      if decide (Wakapi_Server (Config_ s) = "") then (s, Some ServerRequired)
      else
        let s := set_Config (set_Wakapi_Enabled true (Config_ s)) s in
        saveAndNotify s.

Definition DisableWakapi (s : CLIService) : CLIService * option CLIError :=
  if negb (Wakapi_Enabled (Config_ s)) then (s, None)
  else
    let s := set_Config (set_Wakapi_Enabled false (Config_ s)) s in
    saveAndNotify s.

Definition SetConfig (cliPath server project interval : string) (grace : Z)
    (s : CLIService) : CLIService * option CLIError :=
  let s :=
    if decide (cliPath ≠ "") then set_Config (set_WakaTime_CLIPath cliPath (Config_ s)) s
    else s in
  let s :=
    if decide (server ≠ "") then set_Config (set_Wakapi_Server server (Config_ s)) s
    else s in
  let s :=
    if decide (project ≠ "") then
      let s := set_Config (set_WakaTime_GlobalProject project (Config_ s)) s in
      set_Config (set_Wakapi_GlobalProject project (Config_ s)) s
    else s in
  let s :=
    if decide (interval ≠ "") then set_Config (set_PollInterval interval (Config_ s)) s
    else s in
  let s :=
    if decide (grace ≠ 3 ∧ grace >= 0) then set_Config (set_PollGrace grace (Config_ s)) s
    else s in
  saveAndNotify s.

End Save.

(** An enabled integration has what it needs: WakaTime its API key and CLI
    path, Wakapi its API key and server. *)
Definition ready (c : Config) : Prop :=
  (WakaTime_Enabled c = true → WakaTime_APIKey c ≠ "" ∧ WakaTime_CLIPath c ≠ "")
  ∧ (Wakapi_Enabled c = true → Wakapi_APIKey c ≠ "" ∧ Wakapi_Server c ≠ "").

(** The commands that change the configuration. *)
Inductive Command :=
| CmdEnableWakaTime (apiKey path : string)
| CmdDisableWakaTime
| CmdEnableWakapi (apiKey server : string)
| CmdDisableWakapi
| CmdSetConfig (cliPath server project interval : string) (grace : Z).

Definition run (save_fails : Config -> bool) (c : Command) (s : CLIService)
    : CLIService * option CLIError :=
  match c with
  | CmdEnableWakaTime apiKey path => EnableWakaTime save_fails apiKey path s
  | CmdDisableWakaTime => DisableWakaTime save_fails s
  | CmdEnableWakapi apiKey server => EnableWakapi save_fails apiKey server s
  | CmdDisableWakapi => DisableWakapi save_fails s
  | CmdSetConfig cliPath server project interval grace =>
      SetConfig save_fails cliPath server project interval grace s
  end.

Fixpoint run_all (save_fails : Config -> bool) (cs : list Command)
    (s : CLIService) : CLIService :=
  match cs with
  | [] => s
  | c :: rest => run_all save_fails rest (fst (run save_fails c s))
  end.

End CLI.

(** * Properties *)

#[local] Set Warnings "-clear-no-such-hyp".

Import Sessions.

Ltac unfold_monad :=
  unfold exec, a_CreateActiveSession, a_GetActiveSession, a_RemoveActiveSession,
    h_AddToSessionHistory, pr_UpdateLifetime, get_program, put_program,
    delete_program, time_Now, Printf, attempt, set_active, set_history,
    set_lifetime, bind, ret in *.

(** Case analysis on the outcome of every repository call in the goal. *)
Ltac storage_cases :=
  repeat (simpl;
    match goal with
    | |- context [faulty ?w ?i] => is_var w; destruct (faulty w i) eqn:?
    | |- context [active ?w !! ?n] => is_var w; destruct (active w !! n) eqn:?
    end); simpl.

Lemma exec_seq {A} (m : M A) (k : M unit) (w : World) :
  exec (m ;;; k) w = exec k (exec m w).
Proof. unfold exec, bind. destruct (m w); reflexivity. Qed.

Lemma new_calls_app (w w' : World) (cs : list RepoCall) :
  calls w' = calls w ++ cs → new_calls w w' = cs.
Proof. unfold new_calls. intros ->. apply drop_app_length. Qed.

Lemma new_logged_app (w w' : World) (ls : list LogLine) :
  logged w' = logged w ++ ls → new_logged w w' = ls.
Proof. unfold new_logged. intros ->. apply drop_app_length. Qed.

(** *** MoveSessionToHistory *)

Lemma MoveSessionToHistory_frame (n : string) (w : World) :
  Programs (exec (MoveSessionToHistory n) w) = Programs w
  ∧ faulty (exec (MoveSessionToHistory n) w) = faulty w
  ∧ clock (exec (MoveSessionToHistory n) w) = clock w.
Proof. unfold MoveSessionToHistory. unfold_monad. storage_cases; auto. Qed.

Lemma MoveSessionToHistory_calls (n : string) (w : World) :
  ∃ cs, calls (exec (MoveSessionToHistory n) w) = calls w ++ GetActiveSession n :: cs
        ∧ Forall (λ c, call_name c = n) cs.
Proof.
  unfold MoveSessionToHistory. unfold_monad.
  storage_cases; rewrite <- ?app_assoc; simpl;
    eexists; (split; [reflexivity | repeat constructor]).
Qed.

(** A commit that finds no ActiveSession row reads, logs and stops. *)
Lemma commit_without_record (n : string) (w : World) :
  active w !! n = None →
  let w' := exec (MoveSessionToHistory n) w in
  Programs w' = Programs w ∧ active w' = active w ∧ history w' = history w
  ∧ lifetime w' = lifetime w
  ∧ calls w' = calls w ++ [GetActiveSession n]
  ∧ ∃ e, logged w' = logged w ++ [ErrorGettingActive e].
Proof.
  intros Hnone. unfold MoveSessionToHistory. unfold_monad. simpl.
  destruct (faulty w (length (calls w))); simpl; rewrite ?Hnone; simpl;
    repeat split; eauto.
Qed.

(** A commit over a storage layer that answers: with an ActiveSession row
    and four calls that do not fail, [MoveSessionToHistory] appends one
    history row (the start time of the row, the time it reads, the seconds
    between them as [duration_seconds] gives them), adds the duration to the lifetime, deletes the
    ActiveSession row and logs the move. *)
Lemma MoveSessionToHistory_succeeds (n : string) (w : World) (startTime : Time) :
  active w !! n = Some startTime →
  (∀ k, (k < 4)%nat → faulty w (length (calls w) + k) = false) →
  let endTime := clock w (reads w) in
  let d := duration_seconds startTime endTime in
  let row := mkHistoryRow n startTime endTime d in
  exec (MoveSessionToHistory n) w =
  mkWorld (Programs w) (delete n (active w)) (history w ++ [row])
    (alter (Z.add d) n (lifetime w))
    (calls w ++ [GetActiveSession n; AddToSessionHistory row;
                 UpdateLifetime n d; RemoveActiveSession n])
    (faulty w) (clock w) (S (reads w)) (logged w ++ [InfoMoved n d]).
Proof.
  intros Hrow Hok. cbv zeta.
  pose proof (Hok 0%nat ltac:(lia)) as H0.
  pose proof (Hok 1%nat ltac:(lia)) as H1.
  pose proof (Hok 2%nat ltac:(lia)) as H2.
  pose proof (Hok 3%nat ltac:(lia)) as H3.
  rewrite Nat.add_0_r in H0.
  unfold MoveSessionToHistory. unfold_monad. simpl.
  rewrite H0. simpl. rewrite Hrow. simpl.
  rewrite !length_app. simpl. rewrite H1. simpl.
  rewrite !length_app. simpl.
  replace (length (calls w) + 1 + 1)%nat with (length (calls w) + 2)%nat by lia.
  rewrite H2. simpl.
  rewrite !length_app. simpl.
  replace (length (calls w) + 1 + 1 + 1)%nat with (length (calls w) + 3)%nat by lia.
  rewrite H3. simpl.
  by rewrite <- !app_assoc.
Qed.

(** The duration of a session is what Go computes through [float64]: whole
    seconds for the usual lengths, and a second more than the whole seconds
    where the sum is rounded up (from 2^24 seconds on). *)
Example duration_seconds_rounding :
  duration_seconds 0 120000000000 = 120
  ∧ duration_seconds 0 5999999999 = 5
  ∧ duration_seconds 0 16777216999999999 = 16777217.
Proof. repeat split; vm_compute; reflexivity. Qed.

(** C1 (as amended).  When the start time has been read, the history row is
    appended first.  If that call fails, the failure is logged and the commit
    stops.  If it succeeds, the lifetime update and the removal of the
    ActiveSession row are both attempted, whatever the outcome of the other,
    and each failure is logged. *)
Theorem commit_calls_after_read (n : string) (w : World) (startTime : Time) :
  faulty w (length (calls w)) = false →
  active w !! n = Some startTime →
  let w' := exec (MoveSessionToHistory n) w in
  let i := length (calls w) in
  let endTime := clock w (reads w) in
  let d := duration_seconds startTime endTime in
  let row := mkHistoryRow n startTime endTime d in
  if faulty w (S i) then
    new_calls w w' = [GetActiveSession n; AddToSessionHistory row]
    ∧ new_logged w w' = [ErrorCreatingHistory n ErrStorage]
  else
    new_calls w w' =
      [GetActiveSession n; AddToSessionHistory row; UpdateLifetime n d;
       RemoveActiveSession n]
    ∧ (faulty w (S (S i)) = true →
       ErrorUpdatingLifetime n ErrStorage ∈ new_logged w w')
    ∧ (faulty w (S (S (S i))) = true →
       ErrorRemovingActive n ErrStorage ∈ new_logged w w').
Proof.
  intros Hread Hrow. cbv zeta.
  unfold MoveSessionToHistory. unfold_monad. simpl.
  rewrite Hread. simpl. rewrite Hrow. simpl.
  rewrite !length_app. simpl. rewrite !Nat.add_1_r.
  destruct (faulty w (S (length (calls w)))) eqn:Hhist; simpl.
  - split; [apply new_calls_app | apply new_logged_app]; simpl;
      rewrite <- ?app_assoc; reflexivity.
  - rewrite !length_app. simpl. rewrite !Nat.add_1_r.
    destruct (faulty w (S (S (length (calls w))))) eqn:Hlife; simpl;
      rewrite !length_app; simpl; rewrite !Nat.add_1_r;
      destruct (faulty w (S (S (S (length (calls w)))))) eqn:Hrem; simpl;
      (split; [apply new_calls_app; simpl; rewrite <- ?app_assoc; reflexivity |]);
      (split; intros Hf; try discriminate Hf;
       erewrite new_logged_app by (simpl; rewrite <- ?app_assoc; reflexivity);
       set_solver).
Qed.

Lemma commit_calls_after_read_witness :
  let w := browser_open no_faults in
  let w' := exec (MoveSessionToHistory "browser") w in
  faulty w (length (calls w)) = false
  ∧ active w !! "browser" = Some 0
  ∧ new_calls w w' =
      [GetActiveSession "browser";
       AddToSessionHistory (mkHistoryRow "browser" 0 120000000000 120);
       UpdateLifetime "browser" 120; RemoveActiveSession "browser"].
Proof.
  cbv zeta.
  assert (Hread : faulty (browser_open no_faults)
                    (length (calls (browser_open no_faults))) = false)
    by reflexivity.
  assert (Hrow : active (browser_open no_faults) !! "browser" = Some 0)
    by (vm_compute; reflexivity).
  split; [exact Hread | split; [exact Hrow |]].
  pose proof (commit_calls_after_read "browser" (browser_open no_faults) 0
                Hread Hrow) as H.
  cbv zeta in H.
  change (faulty (browser_open no_faults)
            (S (length (calls (browser_open no_faults))))) with false in H.
  cbv iota in H. destruct H as [H _]. exact H.
Defined.

(** C1 (as stated) fails: the start time is read, the append of the history
    row fails, and neither the lifetime update nor the removal of the
    ActiveSession row is attempted. *)
Lemma commit_stops_after_failed_append :
  let w := browser_open (fault_at 2) in
  let w' := exec (MoveSessionToHistory "browser") w in
  faulty w (length (calls w)) = false
  ∧ active w !! "browser" = Some 0
  ∧ new_calls w w' =
      [GetActiveSession "browser";
       AddToSessionHistory (mkHistoryRow "browser" 0 120000000000 120)]
  ∧ (∀ d, UpdateLifetime "browser" d ∉ new_calls w w')
  ∧ (RemoveActiveSession "browser" ∉ new_calls w w')
  ∧ lifetime w' = lifetime w
  ∧ active w' !! "browser" = Some 0.
Proof.
  cbv zeta.
  assert (Hcalls : new_calls (browser_open (fault_at 2))
            (exec (MoveSessionToHistory "browser") (browser_open (fault_at 2))) =
          [GetActiveSession "browser";
           AddToSessionHistory (mkHistoryRow "browser" 0 120000000000 120)])
    by (vm_compute; reflexivity).
  rewrite Hcalls.
  repeat split; try (vm_compute; reflexivity).
  - intros d Hin. apply elem_of_cons in Hin as [Hin | Hin]; [discriminate |].
    apply elem_of_cons in Hin as [Hin | Hin]; [discriminate |].
    by apply elem_of_nil in Hin.
  - intros Hin. apply elem_of_cons in Hin as [Hin | Hin]; [discriminate |].
    apply elem_of_cons in Hin as [Hin | Hin]; [discriminate |].
    by apply elem_of_nil in Hin.
Qed.

(** C4.  When the first commit has deleted the ActiveSession row, the second
    commit in a row only attempts the read, logs that it found no record, and
    changes neither the history, nor the lifetimes, nor the ActiveSession
    table, nor the session map. *)
Theorem second_commit_changes_nothing (n : string) (w : World) :
  let w1 := exec (MoveSessionToHistory n) w in
  let w2 := exec (MoveSessionToHistory n) w1 in
  active w1 !! n = None →
  history w2 = history w1
  ∧ lifetime w2 = lifetime w1
  ∧ active w2 = active w1
  ∧ Programs w2 = Programs w1
  ∧ new_calls w1 w2 = [GetActiveSession n]
  ∧ ∃ e, new_logged w1 w2 = [ErrorGettingActive e].
Proof.
  intros w1 w2 Hnone.
  destruct (commit_without_record n w1 Hnone) as (HP & Ha & Hh & Hl & Hc & e & Hlog).
  fold w2 in HP, Ha, Hh, Hl, Hc, Hlog.
  repeat split; auto.
  - by apply new_calls_app.
  - exists e. by apply new_logged_app.
Qed.

Lemma second_commit_changes_nothing_witness :
  let w := browser_open no_faults in
  let w1 := exec (MoveSessionToHistory "browser") w in
  let w2 := exec (MoveSessionToHistory "browser") w1 in
  active w1 !! "browser" = None
  ∧ history w1 = [mkHistoryRow "browser" 0 120000000000 120]
  ∧ history w2 = history w1
  ∧ lifetime w2 = lifetime w1.
Proof.
  cbv zeta.
  assert (Hnone : active (exec (MoveSessionToHistory "browser")
                            (browser_open no_faults)) !! "browser" = None)
    by (vm_compute; reflexivity).
  pose proof (second_commit_changes_nothing "browser" (browser_open no_faults)
                Hnone) as (Hh & Hl & _).
  split; [exact Hnone | split; [vm_compute; reflexivity | split; assumption]].
Defined.

(** *** CreateSession, EndSession and EnsureProgram on the session map *)

Lemma size_add_fresh (pid : Z) (s : gset Z) :
  pid ∉ s → (size ({[pid]} ∪ s) = 1%nat ↔ s = ∅).
Proof.
  intros Hfresh. rewrite size_union by set_solver. rewrite size_singleton.
  split.
  - intros Hsz. apply leibniz_equiv, size_empty_inv. lia.
  - intros ->. by rewrite size_empty.
Qed.

Lemma size_zero_iff (s : gset Z) : size s = 0%nat ↔ s = ∅.
Proof.
  split.
  - intros Hsz. apply leibniz_equiv. by apply size_empty_inv.
  - intros ->. apply size_empty.
Qed.

Lemma CreateSession_Programs (name : string) (pid : Z) (w : World) :
  Programs (exec (CreateSession name pid) w) =
  <[name := after_create pid (clock w (reads w))
              (default new_Tracked (Programs w !! name))]> (Programs w).
Proof.
  assert (Hcase : ∀ t : Tracked, pid ∉ PIDs t →
            (size ({[pid]} ∪ PIDs t) = 1%nat ∧ PIDs t = ∅)
            ∨ (size ({[pid]} ∪ PIDs t) ≠ 1%nat ∧ PIDs t ≠ ∅)).
  { intros t Hnin. destruct (decide (PIDs t = ∅)) as [He|He].
    - left. split; [by apply size_add_fresh | done].
    - right. split; [by rewrite size_add_fresh | done]. }
  unfold CreateSession, after_create. unfold_monad.
  destruct (Programs w !! name) as [t|]; [|generalize new_Tracked; intros t];
    simpl.
  all: destruct (decide (pid ∈ PIDs t)) as [Hin|Hnin]; simpl; [reflexivity|].
  all: destruct (Hcase t Hnin) as [[Hsz He]|[Hsz He]].
  all: try (rewrite (decide_True (P := PIDs t = ∅)) by done;
      rewrite (decide_True (P := size ({[pid]} ∪ PIDs t) = 1%nat)) by done; simpl;
      rewrite (decide_True (P := size ({[pid]} ∪ PIDs t) = 1%nat)) by done;
      rewrite He, (right_id_L ∅ (∪));
      storage_cases; reflexivity).
  all: rewrite (decide_False (P := PIDs t = ∅)) by done;
      rewrite (decide_False (P := size ({[pid]} ∪ PIDs t) = 1%nat)) by done; simpl;
      rewrite (decide_False (P := size ({[pid]} ∪ PIDs t) = 1%nat)) by done;
      reflexivity.
Qed.

Lemma CreateSession_env (name : string) (pid : Z) (w : World) :
  clock (exec (CreateSession name pid) w) = clock w
  ∧ faulty (exec (CreateSession name pid) w) = faulty w.
Proof.
  unfold CreateSession. unfold_monad. simpl.
  destruct (Programs w !! name) as [t|]; simpl;
    repeat (case_decide; simpl); storage_cases; auto.
Qed.

Lemma EndSession_Programs (name : string) (pid : Z) (w : World) :
  Programs (exec (EndSession name pid) w) =
  match Programs w !! name with
  | None => Programs w
  | Some t =>
      if decide (pid ∈ PIDs t) then
        if decide (PIDs t ∖ {[pid]} = ∅) then delete name (Programs w)
        else <[name := mkTracked (Category t) (Project t) (PIDs t ∖ {[pid]})
                         (StartAt t) (clock w (reads w))]> (Programs w)
      else Programs w
  end.
Proof.
  unfold EndSession. unfold_monad. simpl.
  destruct (Programs w !! name) as [t|] eqn:Ht; [|reflexivity].
  destruct (decide (pid ∈ PIDs t)) as [Hin|Hnin]; [|reflexivity].
  simpl.
  destruct (decide (size (PIDs t ∖ {[pid]}) = 0%nat)) as [Hsz|Hsz].
  - rewrite decide_True by (by apply size_zero_iff).
    match goal with
    | |- context [MoveSessionToHistory name ?w1] =>
        pose proof (proj1 (MoveSessionToHistory_frame name w1)) as HP;
        unfold exec in HP;
        destruct (MoveSessionToHistory name w1) as [u w2]
    end.
    simpl in *. rewrite HP. by rewrite delete_insert_eq.
  - rewrite decide_False by (by rewrite <- size_zero_iff).
    reflexivity.
Qed.

Lemma EnsureProgram_Programs (name category project : string) (w : World) :
  Programs (exec (EnsureProgram name category project) w) =
  <[ToLower name :=
      match Programs w !! ToLower name with
      | None => mkTracked category project ∅ 0 0
      | Some t => mkTracked category project (PIDs t) (StartAt t) (LastSeen t)
      end]> (Programs w).
Proof.
  unfold EnsureProgram. unfold_monad. simpl.
  destruct (Programs w !! ToLower name) as [[c p s a l]|]; simpl; [|reflexivity].
  unfold set_Category, set_Project.
  repeat (case_decide; simpl); f_equal; f_equal; simpl in *;
    by (repeat match goal with H : ¬ _ ≠ _ |- _ => apply dec_stable in H end; subst).
Qed.

(** The live-PID set after one notification. *)
Lemma live_pids_CreateSession (name n : string) (pid : Z) (w : World) :
  live_pids name (exec (CreateSession n pid) w) =
  if decide (n = name) then {[pid]} ∪ live_pids name w else live_pids name w.
Proof.
  unfold live_pids. rewrite CreateSession_Programs.
  destruct (decide (n = name)) as [->|Hne].
  - rewrite lookup_insert_eq. unfold after_create.
    destruct (Programs w !! name) as [t|]; simpl;
      repeat (case_decide; simpl); set_solver.
  - by rewrite lookup_insert_ne.
Qed.

Lemma live_pids_EndSession (name n : string) (pid : Z) (w : World) :
  live_pids name (exec (EndSession n pid) w) =
  if decide (n = name) then live_pids name w ∖ {[pid]} else live_pids name w.
Proof.
  unfold live_pids. rewrite EndSession_Programs.
  destruct (decide (n = name)) as [->|Hne].
  - destruct (Programs w !! name) as [t|] eqn:Ht; [|rewrite Ht; set_solver].
    destruct (decide (pid ∈ PIDs t)) as [Hin|Hnin].
    + destruct (decide (PIDs t ∖ {[pid]} = ∅)) as [He|He].
      * by rewrite lookup_delete_eq, He.
      * by rewrite lookup_insert_eq.
    + rewrite Ht. set_solver.
  - destruct (Programs w !! n) as [t|] eqn:Ht; [|reflexivity].
    destruct (decide (pid ∈ PIDs t)); [|reflexivity].
    destruct (decide (PIDs t ∖ {[pid]} = ∅)).
    + by rewrite lookup_delete_ne.
    + by rewrite lookup_insert_ne.
Qed.

(** *** Sequences of notifications *)

Lemma started_not_stopped_nil (name : string) (pid : Z) :
  ¬ started_not_stopped name pid [].
Proof. intros (before & after & Heq & _). by destruct before. Qed.

Lemma started_not_stopped_cons (name : string) (pid : Z) (e : Event)
    (evs : list Event) :
  started_not_stopped name pid (e :: evs) ↔
  (e = Started name pid ∧ Stopped name pid ∉ evs)
  ∨ started_not_stopped name pid evs.
Proof.
  split.
  - intros (before & after & Heq & Hafter).
    destruct before as [|e' before]; simpl in Heq; injection Heq as -> ->.
    + by left.
    + right. by exists before, after.
  - intros [[-> Hafter] | (before & after & -> & Hafter)].
    + by exists [], evs.
    + by exists (e :: before), after.
Qed.

Lemma live_pids_deliver (name : string) (e : Event) (w : World) :
  live_pids name (exec (deliver e) w) =
  match e with
  | Started n pid =>
      if decide (n = name) then {[pid]} ∪ live_pids name w else live_pids name w
  | Stopped n pid =>
      if decide (n = name) then live_pids name w ∖ {[pid]} else live_pids name w
  end.
Proof.
  destruct e; simpl; [apply live_pids_CreateSession | apply live_pids_EndSession].
Qed.

Lemma live_pids_deliver_all (name : string) (pid : Z) (evs : list Event) :
  ∀ w : World,
    pid ∈ live_pids name (exec (deliver_all evs) w) ↔
    started_not_stopped name pid evs
    ∨ (pid ∈ live_pids name w ∧ Stopped name pid ∉ evs).
Proof.
  induction evs as [|e evs IH]; intros w.
  - simpl. split.
    + intros Hin. right. split; [exact Hin | apply not_elem_of_nil].
    + intros [Hs | [Hin _]]; [by apply started_not_stopped_nil in Hs | exact Hin].
  - simpl. rewrite exec_seq, IH, live_pids_deliver, started_not_stopped_cons.
    rewrite not_elem_of_cons.
    destruct e as [n p | n p]; destruct (decide (n = name)) as [-> | Hne].
    + rewrite elem_of_union, elem_of_singleton. split.
      * intros [Hs | [[-> | Hin] Hafter]]; [tauto | tauto |].
        right. split; [exact Hin | split; [discriminate | exact Hafter]].
      * intros [[[Heq Hafter] | Hs] | [Hin [_ Hafter]]]; [| tauto | tauto].
        injection Heq as ->. tauto.
    + split.
      * intros [Hs | [Hin Hafter]]; [tauto |].
        right. split; [exact Hin | split; [discriminate | exact Hafter]].
      * intros [[[Heq Hafter] | Hs] | [Hin [_ Hafter]]]; [| tauto | tauto].
        injection Heq as -> ->. by destruct Hne.
    + rewrite elem_of_difference, not_elem_of_singleton. split.
      * intros [Hs | [[Hin Hp] Hafter]]; [tauto |].
        right. split; [exact Hin | split; [congruence | exact Hafter]].
      * intros [[[Heq _] | Hs] | [Hin [Hd Hafter]]]; [discriminate | tauto |].
        right. split; [split; [exact Hin | congruence] | exact Hafter].
    + split.
      * intros [Hs | [Hin Hafter]]; [tauto |].
        right. split; [exact Hin | split; [congruence | exact Hafter]].
      * intros [[[Heq _] | Hs] | [Hin [_ Hafter]]]; [discriminate | tauto | tauto].
Qed.

(** C5.  After any sequence of start and stop notifications, for any names,
    delivered to a new session manager, the live-PID set recorded for a name
    holds exactly the PIDs that were started for that name and not stopped
    afterwards, whatever the storage layer and the clock do. *)
Theorem live_pids_started_minus_stopped (name : string) (pid : Z)
    (evs : list Event) (act : gmap string Time) (hist : list HistoryRow)
    (life : gmap string Z) (flt : nat -> bool) (clk : nat -> Time) :
  pid ∈ live_pids name
          (exec (deliver_all evs) (NewSessionManager act hist life flt clk))
  ↔ started_not_stopped name pid evs.
Proof.
  rewrite live_pids_deliver_all. unfold live_pids. simpl.
  rewrite lookup_empty. split.
  - intros [Hs | [Hin _]]; [exact Hs | by apply not_elem_of_empty in Hin].
  - intros Hs. by left.
Qed.

(** Scenario 2 of the specification. *)
Example editor_two_instances :
  live_pids "editor"
    (exec (deliver_all [Started "editor" 100; Started "editor" 200;
                        Stopped "editor" 100]) (fresh no_faults)) = {[200]}.
Proof. vm_compute. reflexivity. Qed.

(** *** StartAt *)

Lemma CreateSession_open_session (name : string) (pid : Z) (w : World)
    (t : Tracked) :
  Programs w !! name = Some t → PIDs t ≠ ∅ →
  ∃ t', Programs (exec (CreateSession name pid) w) !! name = Some t'
        ∧ StartAt t' = StartAt t ∧ PIDs t' ≠ ∅.
Proof.
  intros Ht Hne. rewrite CreateSession_Programs, lookup_insert_eq, Ht. simpl.
  eexists. split; [reflexivity|]. unfold after_create.
  destruct (decide (pid ∈ PIDs t)); simpl; [by split|].
  rewrite decide_False by done. simpl. split; [reflexivity | set_solver].
Qed.

Lemma create_all_open_session (name : string) (pids : list Z) :
  ∀ (w : World) (t : Tracked),
    Programs w !! name = Some t → PIDs t ≠ ∅ →
    ∃ t', Programs (exec (create_all name pids) w) !! name = Some t'
          ∧ StartAt t' = StartAt t ∧ PIDs t' ≠ ∅.
Proof.
  induction pids as [|pid pids IH]; intros w t Ht Hne; simpl.
  - by exists t.
  - rewrite exec_seq.
    destruct (CreateSession_open_session name pid w t Ht Hne) as (t1 & Ht1 & Hs1 & Hne1).
    destruct (IH _ t1 Ht1 Hne1) as (t2 & Ht2 & Hs2 & Hne2).
    exists t2. split; [exact Ht2 | split; [congruence | exact Hne2]].
Qed.

(** C6.  The [CreateSession] that finds the live-PID set of a program empty
    (no entry, or an entry without PIDs) sets [StartAt] to the time it reads;
    every [CreateSession] that finds the set non-empty, be it for a tracked
    PID or for a new one, leaves [StartAt] as it is, and so does any number
    of them in a row. *)
Theorem StartAt_assigned_once (name : string) (pid : Z) (pids : list Z)
    (w : World) :
  (live_pids name w = ∅ →
   ∃ t1, Programs (exec (CreateSession name pid) w) !! name = Some t1
         ∧ PIDs t1 = {[pid]} ∧ StartAt t1 = clock w (reads w))
  ∧ (∀ t, Programs w !! name = Some t → PIDs t ≠ ∅ →
     ∃ t', Programs (exec (create_all name (pid :: pids)) w) !! name = Some t'
           ∧ StartAt t' = StartAt t).
Proof.
  split.
  - intros Hempty. rewrite CreateSession_Programs, lookup_insert_eq.
    eexists. split; [reflexivity|].
    assert (He : PIDs (default new_Tracked (Programs w !! name)) = ∅).
    { unfold live_pids in Hempty. by destruct (Programs w !! name). }
    unfold after_create. rewrite He.
    rewrite decide_False by set_solver. rewrite decide_True by done.
    by split.
  - intros t Ht Hne.
    destruct (create_all_open_session name (pid :: pids) w t Ht Hne)
      as (t' & Ht' & Hs & _).
    by exists t'.
Qed.

Lemma StartAt_assigned_once_witness :
  let w := fresh no_faults in
  let w1 := exec (CreateSession "browser" 5) w in
  live_pids "browser" w = ∅
  ∧ (∃ t1, Programs w1 !! "browser" = Some t1 ∧ StartAt t1 = 0)
  ∧ (∃ t', Programs (exec (create_all "browser" [5; 6; 7]) w1) !! "browser"
             = Some t' ∧ StartAt t' = 0).
Proof.
  cbv zeta.
  assert (He : live_pids "browser" (fresh no_faults) = ∅) by reflexivity.
  split; [exact He|]. split.
  - destruct (proj1 (StartAt_assigned_once "browser" 5 [] (fresh no_faults)) He)
      as (t1 & Ht1 & _ & Hs).
    exists t1. split; [exact Ht1 | exact Hs].
  - assert (Ht : Programs (exec (CreateSession "browser" 5) (fresh no_faults))
                   !! "browser" = Some (mkTracked "" "" {[5]} 0 0))
      by (vm_compute; reflexivity).
    assert (Hne : PIDs (mkTracked "" "" {[5]} 0 0) ≠ ∅)
      by (simpl; apply non_empty_singleton_L).
    exact (proj2 (StartAt_assigned_once "browser" 5 [6; 7]
                    (exec (CreateSession "browser" 5) (fresh no_faults)))
             _ Ht Hne).
Defined.

(** *** EnsureProgram *)

Lemma EnsureProgram_storage (name category project : string) (w : World) :
  let w' := exec (EnsureProgram name category project) w in
  active w' = active w ∧ history w' = history w ∧ lifetime w' = lifetime w
  ∧ calls w' = calls w ∧ logged w' = logged w.
Proof.
  unfold EnsureProgram. unfold_monad. simpl.
  destruct (Programs w !! ToLower name); simpl; auto.
Qed.

(** C9.  [EnsureProgram] keeps the PIDs, [StartAt] and [LastSeen] of every
    entry of the map.  The entry under the lower-cased name gets the given
    category and project, every other entry is left as it is, and no
    repository is called. *)
Theorem EnsureProgram_keeps_session (name category project key : string)
    (w : World) (t : Tracked) :
  Programs w !! key = Some t →
  let w' := exec (EnsureProgram name category project) w in
  (∃ t', Programs w' !! key = Some t'
         ∧ PIDs t' = PIDs t ∧ StartAt t' = StartAt t ∧ LastSeen t' = LastSeen t
         ∧ (key = ToLower name → Category t' = category ∧ Project t' = project)
         ∧ (key ≠ ToLower name → t' = t))
  ∧ calls w' = calls w ∧ history w' = history w ∧ active w' = active w.
Proof.
  intros Ht w'. split.
  - subst w'. rewrite EnsureProgram_Programs.
    destruct (decide (key = ToLower name)) as [->|Hne].
    + rewrite lookup_insert_eq, Ht. eexists. split; [reflexivity|].
      simpl. repeat split; tauto.
    + rewrite lookup_insert_ne by done. exists t. repeat split; tauto.
  - destruct (EnsureProgram_storage name category project w) as (Ha & Hh & _ & Hc & _).
    fold w' in Ha, Hh, Hc. auto.
Qed.

Lemma EnsureProgram_keeps_session_witness :
  let w := browser_open no_faults in
  let w' := exec (EnsureProgram "Browser" "web" "research") w in
  Programs w !! "browser" = Some (mkTracked "" "" {[5]} 0 0)
  ∧ Programs w' !! "browser" = Some (mkTracked "web" "research" {[5]} 0 0).
Proof.
  cbv zeta.
  assert (Ht : Programs (browser_open no_faults) !! "browser"
               = Some (mkTracked "" "" {[5]} 0 0)) by (vm_compute; reflexivity).
  split; [exact Ht|].
  destruct (EnsureProgram_keeps_session "Browser" "web" "research" "browser"
              (browser_open no_faults) _ Ht) as [(t' & Ht' & HP & HS & HL & Heq & _) _].
  destruct (Heq eq_refl) as [HC HPr].
  rewrite Ht'. destruct t'; simpl in *. by subst.
Defined.

(** *** The keys of the session map *)

Lemma lower_byte_idemp (c : ascii) : lower_byte (lower_byte c) = lower_byte c.
Proof. by destruct c as [[] [] [] [] [] [] [] []]; vm_compute. Qed.

Lemma ToLower_idemp (s : string) : ToLower (ToLower s) = ToLower s.
Proof.
  induction s as [|c s IH]; simpl; [reflexivity|].
  by rewrite lower_byte_idemp, IH.
Qed.

Lemma CreateSession_other_keys (name key : string) (pid : Z) (w : World) :
  key ≠ name →
  Programs (exec (CreateSession name pid) w) !! key = Programs w !! key.
Proof. intros Hne. rewrite CreateSession_Programs. by rewrite lookup_insert_ne. Qed.

Lemma EndSession_other_keys (name key : string) (pid : Z) (w : World) :
  key ≠ name →
  Programs (exec (EndSession name pid) w) !! key = Programs w !! key.
Proof.
  intros Hne. rewrite EndSession_Programs.
  destruct (Programs w !! name) as [t|]; [|reflexivity].
  repeat case_decide; try reflexivity.
  - by rewrite lookup_delete_ne.
  - by rewrite lookup_insert_ne.
Qed.

(** C2 (as stated) fails: [CreateSession] for "Editor" and for "editor", two
    names that differ only in letter case, opens two entries and two
    ActiveSession rows. *)
Lemma case_variants_open_two_sessions :
  let w := exec (CreateSession "editor" 200)
             (exec (CreateSession "Editor" 100) (fresh no_faults)) in
  ToLower "Editor" = ToLower "editor"
  ∧ live_pids "Editor" w = {[100]}
  ∧ live_pids "editor" w = {[200]}
  ∧ active w !! "Editor" = Some 0
  ∧ active w !! "editor" = Some 120000000000.
Proof. cbv zeta. repeat split; vm_compute; reflexivity. Qed.

(** C2 (as amended).  [EnsureProgram] addresses the entry under the
    lower-cased name, so two calls whose names differ only in letter case
    address the same entry; [CreateSession] and [EndSession] address the
    entry under the name as it is given, which is the entry of
    [EnsureProgram] when the name is in lower case.  Each of the three leaves
    the entries under all other keys alone. *)
Theorem program_keys (n1 n2 category project : string) (pid : Z) (w : World) :
  ToLower n1 = ToLower n2 →
  Programs (exec (EnsureProgram n1 category project) w)
  = Programs (exec (EnsureProgram n2 category project) w)
  ∧ (∀ key, key ≠ ToLower n1 →
       Programs (exec (EnsureProgram n1 category project) w) !! key
       = Programs w !! key)
  ∧ is_Some (Programs (exec (EnsureProgram n1 category project) w) !! ToLower n1)
  ∧ (∀ key, key ≠ n1 →
       Programs (exec (CreateSession n1 pid) w) !! key = Programs w !! key)
  ∧ is_Some (Programs (exec (CreateSession n1 pid) w) !! n1)
  ∧ (∀ key, key ≠ n1 →
       Programs (exec (EndSession n1 pid) w) !! key = Programs w !! key).
Proof.
  intros Hcase. repeat split.
  - rewrite !EnsureProgram_Programs. by rewrite Hcase.
  - intros key Hne. rewrite EnsureProgram_Programs. by rewrite lookup_insert_ne.
  - rewrite EnsureProgram_Programs, lookup_insert_eq. by eexists.
  - intros key Hne. by apply CreateSession_other_keys.
  - rewrite CreateSession_Programs, lookup_insert_eq. by eexists.
  - intros key Hne. by apply EndSession_other_keys.
Qed.

Lemma program_keys_witness :
  ToLower "Editor" = ToLower "EDITOR"
  ∧ Programs (exec (EnsureProgram "Editor" "dev" "") (fresh no_faults))
    = Programs (exec (EnsureProgram "EDITOR" "dev" "") (fresh no_faults)).
Proof.
  assert (Hcase : ToLower "Editor" = ToLower "EDITOR") by reflexivity.
  split; [exact Hcase|].
  exact (proj1 (program_keys "Editor" "EDITOR" "dev" "" 0 (fresh no_faults) Hcase)).
Defined.

(** *** The probes *)

(** C3 (as stated) fails for the Windows probe: when [OpenProcess] is denied
    access, the probe answers that the process is not running. *)
Lemma windows_probe_access_denied :
  let OpenProcess := fun (_ : Z) (_ : bool) (_ : Z) => inr Probe.ERROR_ACCESS_DENIED in
  let GetExitCodeProcess := fun _ : unit => inl Probe.STILL_ACTIVE in
  OpenProcess Probe.PROCESS_QUERY_INFORMATION false (Probe.uint32 4242)
  = inr Probe.ERROR_ACCESS_DENIED
  ∧ Probe.ERROR_ACCESS_DENIED ≠ Probe.ERROR_INVALID_PARAMETER
  ∧ Probe.isProcessRunning_windows unit OpenProcess GetExitCodeProcess 4242 = false.
Proof. cbv zeta. repeat split. discriminate. Qed.

(** C3 (as amended).  The Linux probe answers "running" whenever [kill] fails
    for another reason than "no such process".  The Windows probe answers
    "not running" whenever [OpenProcess] or [GetExitCodeProcess] fails,
    whatever the reason, and "running" only for the exit code 259. *)
Theorem probe_on_failure (Kill : Z -> Z -> option Probe.Errno) (Handle : Type)
    (OpenProcess : Z -> bool -> Z -> Handle + Z)
    (GetExitCodeProcess : Handle -> Z + Z) (pid : Z) :
  (∀ err, Kill pid 0 = Some err → err ≠ Probe.ESRCH →
          Probe.isProcessRunning_linux Kill pid = true)
  ∧ (∀ err, OpenProcess Probe.PROCESS_QUERY_INFORMATION false (Probe.uint32 pid)
            = inr err →
            Probe.isProcessRunning_windows Handle OpenProcess GetExitCodeProcess pid
            = false)
  ∧ (∀ handle err,
       OpenProcess Probe.PROCESS_QUERY_INFORMATION false (Probe.uint32 pid)
       = inl handle →
       GetExitCodeProcess handle = inr err →
       Probe.isProcessRunning_windows Handle OpenProcess GetExitCodeProcess pid
       = false)
  ∧ (Probe.isProcessRunning_windows Handle OpenProcess GetExitCodeProcess pid
     = true ↔
     ∃ handle,
       OpenProcess Probe.PROCESS_QUERY_INFORMATION false (Probe.uint32 pid)
       = inl handle
       ∧ GetExitCodeProcess handle = inl Probe.STILL_ACTIVE).
Proof.
  unfold Probe.isProcessRunning_linux, Probe.isProcessRunning_windows.
  repeat split.
  - intros err -> Hne. by rewrite decide_False.
  - by intros err ->.
  - by intros handle err -> ->.
  - destruct (OpenProcess _ _ _) as [handle|]; [|discriminate].
    destruct (GetExitCodeProcess handle) as [exitCode|] eqn:Hcode; [|discriminate].
    intros Hb. apply bool_decide_eq_true in Hb. subst. by exists handle.
  - intros (handle & -> & ->). reflexivity.
Qed.

Lemma probe_on_failure_witness :
  Probe.isProcessRunning_linux (fun _ _ => Some Probe.EPERM) 4242 = true
  ∧ Probe.isProcessRunning_windows unit
      (fun _ _ _ => inr Probe.ERROR_ACCESS_DENIED) (fun _ => inl 259) 4242 = false.
Proof.
  pose proof (probe_on_failure (fun _ _ => Some Probe.EPERM) unit
                (fun _ _ _ => inr Probe.ERROR_ACCESS_DENIED) (fun _ => inl 259) 4242)
    as (Hlinux & Hopen & _).
  split.
  - apply (Hlinux Probe.EPERM); [reflexivity | discriminate].
  - apply (Hopen Probe.ERROR_ACCESS_DENIED). reflexivity.
Defined.

(** *** The reconciliation sweep *)

Lemma allPIDsGone_true (isProcessRunning : Z -> bool) (pids : list Z) :
  allPIDsGone isProcessRunning pids = true ↔
  ∀ pid, pid ∈ pids → isProcessRunning pid = false.
Proof.
  induction pids as [|p pids IH]; simpl.
  - split; [|done]. intros _ pid Hin. by apply elem_of_nil in Hin.
  - destruct (isProcessRunning p) eqn:Hp.
    + split; [discriminate|]. intros Hall.
      rewrite Hall in Hp; [discriminate | apply elem_of_cons; by left].
    + rewrite IH. split.
      * intros Hall pid Hin. apply elem_of_cons in Hin as [->|Hin]; auto.
      * intros Hall pid Hin. apply Hall, elem_of_cons. by right.
Qed.

(** A program is marked when it has live PIDs and the probe finds none of
    them running. *)
Lemma marked_iff (isProcessRunning : Z -> bool) (t : Tracked) :
  size (PIDs t) ≠ 0%nat ∧ allPIDsGone isProcessRunning (elements (PIDs t)) = true
  ↔ PIDs t ≠ ∅ ∧ ∀ pid, pid ∈ PIDs t → isProcessRunning pid = false.
Proof.
  rewrite size_zero_iff, allPIDsGone_true.
  split; intros [Hne Hall]; (split; [exact Hne|]);
    intros pid Hin; apply Hall; by apply elem_of_elements.
Qed.

Lemma scan_programs_spec (isProcessRunning : Z -> bool)
    (entries : list (string * Tracked)) :
  ∀ (acc : list string) (w : World),
    let r := scan_programs isProcessRunning entries acc w in
    Programs (snd r) = Programs w
    ∧ calls (snd r) = calls w
    ∧ ∀ name, name ∈ fst r ↔
        name ∈ acc
        ∨ ∃ t, (name, t) ∈ entries ∧ PIDs t ≠ ∅
               ∧ ∀ pid, pid ∈ PIDs t → isProcessRunning pid = false.
Proof.
  induction entries as [|[n t] entries IH]; intros acc w; simpl.
  - repeat split; [tauto|].
    intros [Hin | (t & Hin & _)]; [exact Hin | by apply elem_of_nil in Hin].
  - pose proof (marked_iff isProcessRunning t) as Hmark.
    destruct (decide (size (PIDs t) = 0%nat)) as [Hsz|Hsz];
      [|destruct (allPIDsGone isProcessRunning (elements (PIDs t))) eqn:Hgone].
    + destruct (IH acc w) as (HP & Hc & Hnames). repeat split; auto.
      * intros Hin. apply Hnames in Hin as [Hin | (t' & Hin & Hrest)]; [by left|].
        right. exists t'. split; [apply elem_of_cons; by right | exact Hrest].
      * intros [Hin | (t' & Hin & Hne & Hall)]; apply Hnames; [by left|].
        apply elem_of_cons in Hin as [Heq | Hin]; [|right; by exists t'].
        injection Heq as -> ->. by apply size_zero_iff in Hsz.
    + unfold bind, Printf. simpl.
      match goal with
      | |- context [scan_programs _ _ _ ?w1] =>
          destruct (IH (acc ++ [n]) w1) as (HP & Hc & Hnames)
      end.
      simpl in HP, Hc. repeat split; auto.
      * intros Hin. apply Hnames in Hin as [Hin | (t' & Hin & Hrest)].
        -- apply elem_of_app in Hin as [Hin | Hin]; [by left|].
           apply list_elem_of_singleton in Hin as ->.
           right. exists t. split; [apply elem_of_cons; by left | tauto].
        -- right. exists t'. split; [apply elem_of_cons; by right | exact Hrest].
      * intros [Hin | (t' & Hin & Hne & Hall)]; apply Hnames.
        -- left. apply elem_of_app. by left.
        -- apply elem_of_cons in Hin as [Heq | Hin]; [|right; by exists t'].
           injection Heq as -> ->. left. apply elem_of_app. right.
           by apply list_elem_of_singleton.
    + destruct (IH acc w) as (HP & Hc & Hnames). repeat split; auto.
      * intros Hin. apply Hnames in Hin as [Hin | (t' & Hin & Hrest)]; [by left|].
        right. exists t'. split; [apply elem_of_cons; by right | exact Hrest].
      * intros [Hin | (t' & Hin & Hne & Hall)]; apply Hnames; [by left|].
        apply elem_of_cons in Hin as [Heq | Hin]; [|right; by exists t'].
        injection Heq as -> ->.
        assert (Hfalse : size (PIDs t) ≠ 0%nat ∧ false = true)
          by (apply Hmark; by split).
        destruct Hfalse; discriminate.
Qed.

Lemma clean_programs_spec (names : list string) :
  ∀ w : World,
    let w' := exec (clean_programs names) w in
    (∀ key, key ∈ names → Programs w' !! key = None)
    ∧ (∀ key, key ∉ names → Programs w' !! key = Programs w !! key)
    ∧ ∃ cs, calls w' = calls w ++ cs
            ∧ (∀ c, c ∈ cs → call_name c ∈ names)
            ∧ (∀ n, n ∈ names → GetActiveSession n ∈ cs).
Proof.
  induction names as [|n names IH]; intros w; simpl.
  - repeat split.
    + intros key Hin. by apply elem_of_nil in Hin.
    + exists []. rewrite app_nil_r. repeat split.
      * intros c Hin. by apply elem_of_nil in Hin.
      * intros k Hin. by apply elem_of_nil in Hin.
  - rewrite !exec_seq.
    destruct (MoveSessionToHistory_frame n w) as (HP1 & _).
    destruct (MoveSessionToHistory_calls n w) as (cs1 & Hc1 & Hn1).
    set (w1 := exec (MoveSessionToHistory n) w) in *.
    set (w2 := exec (delete_program n) w1).
    assert (HP2 : Programs w2 = delete n (Programs w)) by (by rewrite <- HP1).
    assert (Hc2 : calls w2 = calls w1) by reflexivity.
    destruct (IH w2) as (Hin & Hout & cs & Hc & Hnames & Hget).
    repeat split.
    + intros key Hkey. destruct (decide (key ∈ names)) as [Hk|Hk]; [by apply Hin|].
      apply elem_of_cons in Hkey as [->|Hkey]; [|done].
      rewrite Hout by done. rewrite HP2. apply lookup_delete_eq.
    + intros key Hkey. apply not_elem_of_cons in Hkey as [Hne Hkey].
      rewrite Hout by done. rewrite HP2. by apply lookup_delete_ne.
    + exists ((GetActiveSession n :: cs1) ++ cs). repeat split.
      * rewrite Hc, Hc2, Hc1. by rewrite <- !app_assoc.
      * intros c Hc'. apply elem_of_app in Hc' as [Hc' | Hc'].
        -- apply elem_of_cons. left.
           apply elem_of_cons in Hc' as [-> | Hc']; [reflexivity|].
           by apply (proj1 (Forall_forall _ _) Hn1).
        -- apply elem_of_cons. right. by apply Hnames.
      * intros k Hk. apply elem_of_app.
        apply elem_of_cons in Hk as [-> | Hk].
        -- left. apply elem_of_cons. by left.
        -- right. by apply Hget.
Qed.

(** What one sweep tick does to the map and which calls it makes, for any
    enumeration of the entries. *)
Lemma ValidateActiveSessions_in_spec (isProcessRunning : Z -> bool)
    (entries : list (string * Tracked)) (w : World) :
  entries ≡ₚ map_to_list (Programs w) →
  let w' := exec (ValidateActiveSessions_in isProcessRunning entries) w in
  let dead name :=
    ∃ t, Programs w !! name = Some t ∧ PIDs t ≠ ∅
         ∧ ∀ pid, pid ∈ PIDs t → isProcessRunning pid = false in
  (∀ name, dead name → Programs w' !! name = None)
  ∧ (∀ name, ¬ dead name → Programs w' !! name = Programs w !! name)
  ∧ (∀ name, dead name → GetActiveSession name ∈ new_calls w w')
  ∧ (∀ c, c ∈ new_calls w w' → dead (call_name c)).
Proof.
  intros Hperm w' dead.
  unfold ValidateActiveSessions_in, exec, bind in w'.
  destruct (scan_programs_spec isProcessRunning entries [] w) as (HP & Hc & Hnames).
  destruct (scan_programs isProcessRunning entries [] w) as [names w1] eqn:Hscan.
  simpl in HP, Hc, Hnames.
  assert (Hdead : ∀ name, name ∈ names ↔ dead name).
  { intros name. rewrite Hnames. unfold dead. split.
    - intros [Hin | (t & Hin & Hrest)]; [by apply elem_of_nil in Hin|].
      exists t. split; [|exact Hrest].
      apply elem_of_map_to_list. by rewrite <- Hperm.
    - intros (t & Ht & Hrest). right. exists t. split; [|exact Hrest].
      rewrite Hperm. by apply elem_of_map_to_list. }
  destruct (clean_programs_spec names w1) as (Hin & Hout & cs & Hcs & Hcn & Hget).
  fold (exec (clean_programs names) w1) in w'.
  assert (Hnew : new_calls w w' = cs).
  { apply new_calls_app. subst w'. by rewrite Hcs, Hc. }
  rewrite Hnew. repeat split.
  - intros name Hd. subst w'. apply Hin. by apply Hdead.
  - intros name Hd. subst w'. rewrite Hout; [by rewrite HP|]. by rewrite Hdead.
  - intros name Hd. apply Hget. by apply Hdead.
  - intros c Hc'. apply Hdead. by apply Hcn.
Qed.

Lemma ValidateActiveSessions_unfold (isProcessRunning : Z -> bool) (w : World) :
  exec (ValidateActiveSessions isProcessRunning) w
  = exec (ValidateActiveSessions_in isProcessRunning (map_to_list (Programs w))) w.
Proof. reflexivity. Qed.

Lemma scan_programs_log_only (isProcessRunning : Z -> bool)
    (entries : list (string * Tracked)) :
  ∀ (acc : list string) (w : World),
    let w' := snd (scan_programs isProcessRunning entries acc w) in
    Programs w' = Programs w ∧ active w' = active w ∧ history w' = history w
    ∧ lifetime w' = lifetime w ∧ calls w' = calls w ∧ faulty w' = faulty w
    ∧ clock w' = clock w ∧ reads w' = reads w.
Proof.
  induction entries as [|[n t] entries IH]; intros acc w; simpl; [done|].
  destruct (decide (size (PIDs t) = 0%nat));
    [|destruct (allPIDsGone isProcessRunning (elements (PIDs t)))].
  - apply IH.
  - unfold bind, Printf. simpl.
    match goal with
    | |- context [scan_programs _ _ ?a ?w1] => destruct (IH a w1) as (?&?&?&?&?&?&?&?)
    end.
    simpl in *. done.
  - apply IH.
Qed.

Lemma MoveSessionToHistory_other_names (n name : string) (w : World) :
  name ≠ n →
  let w' := exec (MoveSessionToHistory n) w in
  active w' !! name = active w !! name
  ∧ lifetime w' !! name = lifetime w !! name
  ∧ rows_of name (history w') = rows_of name (history w).
Proof.
  intros Hne. unfold MoveSessionToHistory, rows_of. unfold_monad.
  storage_cases;
    rewrite ?lookup_delete_ne, ?lookup_alter_ne, ?filter_app by done;
    rewrite ?filter_cons_False, ?filter_nil, ?app_nil_r by (simpl; congruence);
    done.
Qed.

Lemma clean_programs_other_names (name : string) (names : list string) :
  ∀ w : World,
    name ∉ names →
    let w' := exec (clean_programs names) w in
    active w' !! name = active w !! name
    ∧ lifetime w' !! name = lifetime w !! name
    ∧ rows_of name (history w') = rows_of name (history w).
Proof.
  induction names as [|n names IH]; intros w Hnin; simpl; [done|].
  apply not_elem_of_cons in Hnin as [Hne Hnin].
  rewrite !exec_seq.
  destruct (MoveSessionToHistory_other_names n name w Hne) as (Ha & Hl & Hh).
  set (w1 := exec (MoveSessionToHistory n) w) in *.
  destruct (IH (exec (delete_program n) w1) Hnin) as (Ha' & Hl' & Hh').
  rewrite Ha', Hl', Hh'. done.
Qed.

Lemma clean_programs_no_row (name : string) (names : list string) :
  ∀ w : World,
    (∀ i, faulty w i = false) →
    active w !! name = None →
    let w' := exec (clean_programs names) w in
    active w' !! name = None
    ∧ lifetime w' !! name = lifetime w !! name
    ∧ rows_of name (history w') = rows_of name (history w).
Proof.
  induction names as [|n names IH]; intros w Hok Hnone; simpl; [done|].
  rewrite !exec_seq.
  destruct (MoveSessionToHistory_frame n w) as (_ & Hf & _).
  assert (Hstep : active (exec (MoveSessionToHistory n) w) !! name = None
                  ∧ lifetime (exec (MoveSessionToHistory n) w) !! name
                    = lifetime w !! name
                  ∧ rows_of name (history (exec (MoveSessionToHistory n) w))
                    = rows_of name (history w)).
  { destruct (decide (name = n)) as [->|Hne].
    - destruct (commit_without_record n w Hnone) as (_ & -> & -> & -> & _).
      done.
    - destruct (MoveSessionToHistory_other_names n name w Hne) as (-> & -> & ->).
      done. }
  destruct Hstep as (Ha & Hl & Hh).
  set (w1 := exec (MoveSessionToHistory n) w) in *.
  destruct (IH (exec (delete_program n) w1)) as (Ha' & Hl' & Hh').
  - intros i. simpl. rewrite Hf. apply Hok.
  - exact Ha.
  - rewrite Ha', Hl', Hh'. done.
Qed.

(** Over a storage layer that answers, cleaning a list of programs commits
    the open session of each of them once. *)
Lemma clean_programs_commits (name : string) (names : list string) :
  ∀ (w : World) (startTime : Time),
    name ∈ names →
    (∀ i, faulty w i = false) →
    active w !! name = Some startTime →
    let w' := exec (clean_programs names) w in
    ∃ k, let endTime := clock w k in
         let d := duration_seconds startTime endTime in
         rows_of name (history w')
         = rows_of name (history w) ++ [mkHistoryRow name startTime endTime d]
         ∧ lifetime w' !! name = Z.add d <$> lifetime w !! name
         ∧ active w' !! name = None.
Proof.
  induction names as [|n names IH]; intros w startTime Hin Hok Hrow; simpl.
  { by apply elem_of_nil in Hin. }
  rewrite !exec_seq.
  destruct (decide (name = n)) as [<-|Hne].
  - rewrite (MoveSessionToHistory_succeeds name w startTime Hrow (λ k _, Hok _)).
    exists (reads w). cbv zeta.
    match goal with
    | |- context [exec (clean_programs names) ?w2] =>
        destruct (clean_programs_no_row name names w2) as (Ha & Hl & Hh)
    end.
    + intros i. simpl. apply Hok.
    + simpl. apply lookup_delete_eq.
    + rewrite Ha, Hl, Hh. simpl. unfold rows_of.
      rewrite filter_app, filter_cons_True, filter_nil by done.
      by rewrite lookup_alter_eq.
  - apply elem_of_cons in Hin as [Hin|Hin]; [done|].
    destruct (MoveSessionToHistory_other_names n name w Hne) as (Ha & Hl & Hh).
    destruct (MoveSessionToHistory_frame n w) as (_ & Hf & Hc).
    set (w1 := exec (MoveSessionToHistory n) w) in *.
    destruct (IH (exec (delete_program n) w1) startTime Hin) as (k & Hh' & Hl' & Ha').
    + intros i. simpl. rewrite Hf. apply Hok.
    + simpl. by rewrite Ha.
    + exists k. simpl in Hh', Hl', Ha'. rewrite Hc in Hh', Hl'.
      rewrite Hh', Hl', Ha'. by rewrite Hh, Hl.
Qed.

(** A sweep tick is the cleaning of the marked programs, after the log lines
    of the marking. *)
Lemma ValidateActiveSessions_in_cleaning (isProcessRunning : Z -> bool)
    (entries : list (string * Tracked)) (w : World) :
  entries ≡ₚ map_to_list (Programs w) →
  ∃ names w1,
    exec (ValidateActiveSessions_in isProcessRunning entries) w
    = exec (clean_programs names) w1
    ∧ active w1 = active w ∧ history w1 = history w ∧ lifetime w1 = lifetime w
    ∧ faulty w1 = faulty w ∧ clock w1 = clock w
    ∧ ∀ name, name ∈ names ↔
        ∃ t, Programs w !! name = Some t ∧ PIDs t ≠ ∅
             ∧ ∀ pid, pid ∈ PIDs t → isProcessRunning pid = false.
Proof.
  intros Hperm. unfold ValidateActiveSessions_in, exec, bind.
  destruct (scan_programs_spec isProcessRunning entries [] w) as (_ & _ & Hnames).
  destruct (scan_programs_log_only isProcessRunning entries [] w)
    as (_ & Ha & Hh & Hl & _ & Hf & Hc & _).
  destruct (scan_programs isProcessRunning entries [] w) as [names w1].
  simpl in *. exists names, w1. repeat split; try done.
  - rewrite Hnames. intros [Hin | (t & Hin & Hrest)]; [by apply elem_of_nil in Hin|].
    exists t. split; [|exact Hrest].
    apply elem_of_map_to_list. by rewrite <- Hperm.
  - intros (t & Ht & Hrest). apply Hnames. right. exists t. split; [|exact Hrest].
    rewrite Hperm. by apply elem_of_map_to_list.
Qed.

(** C7.  On a sweep tick, in whatever order the entries are visited, a
    tracked program with at least one live PID whose PIDs are all reported
    dead is committed and its entry is removed: [MoveSessionToHistory] runs
    for it (its ActiveSession row is read) and, when the storage layer
    answers and the row is there, exactly one history row is added for the
    program, from the stored start time to the time the commit reads, the
    lifetime is raised by that duration and the ActiveSession row is
    deleted.  If one of its PIDs is reported alive, its entry stays as it
    is, no repository call is made for it, and its history rows, lifetime
    and ActiveSession row are as before. *)
Theorem sweep_commits_dead_programs (isProcessRunning : Z -> bool)
    (entries : list (string * Tracked)) (w : World) (name : string)
    (t : Tracked) :
  entries ≡ₚ map_to_list (Programs w) →
  Programs w !! name = Some t →
  PIDs t ≠ ∅ →
  let w' := exec (ValidateActiveSessions_in isProcessRunning entries) w in
  ((∀ pid, pid ∈ PIDs t → isProcessRunning pid = false) →
   Programs w' !! name = None ∧ GetActiveSession name ∈ new_calls w w'
   ∧ ∀ startTime,
       active w !! name = Some startTime →
       (∀ i, faulty w i = false) →
       ∃ k, let endTime := clock w k in
            let d := duration_seconds startTime endTime in
            rows_of name (history w')
            = rows_of name (history w) ++ [mkHistoryRow name startTime endTime d]
            ∧ lifetime w' !! name = Z.add d <$> lifetime w !! name
            ∧ active w' !! name = None)
  ∧ ((∃ pid, pid ∈ PIDs t ∧ isProcessRunning pid = true) →
     Programs w' !! name = Some t
     ∧ (∀ c, c ∈ new_calls w w' → call_name c ≠ name)
     ∧ rows_of name (history w') = rows_of name (history w)
     ∧ lifetime w' !! name = lifetime w !! name
     ∧ active w' !! name = active w !! name).
Proof.
  intros Hperm Ht Hne w'.
  destruct (ValidateActiveSessions_in_spec isProcessRunning entries w Hperm)
    as (Hdead & Halive & Hget & Hcalls).
  destruct (ValidateActiveSessions_in_cleaning isProcessRunning entries w Hperm)
    as (names & w1 & Hclean & Ha1 & Hh1 & Hl1 & Hf1 & Hc1 & Hnames).
  fold w' in Hdead, Halive, Hget, Hcalls, Hclean.
  split.
  - intros Hall.
    assert (Hd : ∃ t, Programs w !! name = Some t ∧ PIDs t ≠ ∅
                      ∧ ∀ pid, pid ∈ PIDs t → isProcessRunning pid = false)
      by (by exists t).
    split; [by apply Hdead | split; [by apply Hget|]].
    intros startTime Hrow Hok.
    destruct (clean_programs_commits name names w1 startTime) as (k & Hres).
    + by apply Hnames.
    + intros i. rewrite Hf1. apply Hok.
    + by rewrite Ha1.
    + exists k. rewrite Hclean. simpl in Hres.
      rewrite Hh1, Hl1, Hc1 in Hres. exact Hres.
  - intros (pid & Hin & Hrun).
    assert (Hd : ¬ ∃ t, Programs w !! name = Some t ∧ PIDs t ≠ ∅
                        ∧ ∀ pid, pid ∈ PIDs t → isProcessRunning pid = false).
    { intros (t' & Ht' & _ & Hall). rewrite Ht in Ht'. injection Ht' as <-.
      rewrite Hall in Hrun by done. discriminate. }
    split; [by rewrite Halive|].
    split; [intros c Hc Heq; apply Hd; rewrite <- Heq; by apply Hcalls|].
    destruct (clean_programs_other_names name names w1) as (Ha & Hl & Hh).
    + by rewrite Hnames.
    + rewrite Hclean. rewrite Ha, Hl, Hh, Ha1, Hl1, Hh1. done.
Qed.

Lemma sweep_commits_dead_programs_witness :
  let w := exec (deliver_all [Started "browser" 5; Started "editor" 100])
             (fresh no_faults) in
  let probe := fun pid : Z => bool_decide (pid = 100) in
  let w' := exec (ValidateActiveSessions probe) w in
  Programs w !! "browser" = Some (mkTracked "" "" {[5]} 0 0)
  ∧ Programs w !! "editor" = Some (mkTracked "" "" {[100]} 120000000000 120000000000)
  ∧ Programs w' !! "browser" = None
  ∧ Programs w' !! "editor" = Some (mkTracked "" "" {[100]} 120000000000 120000000000)
  ∧ (∃ k, rows_of "browser" (history w')
          = [mkHistoryRow "browser" 0 (two_minutes k)
               (duration_seconds 0 (two_minutes k))])
  ∧ rows_of "editor" (history w') = [].
Proof.
  cbv zeta.
  set (w := exec (deliver_all [Started "browser" 5; Started "editor" 100])
              (fresh no_faults)).
  set (probe := fun pid : Z => bool_decide (pid = 100)).
  assert (Hb : Programs w !! "browser" = Some (mkTracked "" "" {[5]} 0 0))
    by (vm_compute; reflexivity).
  assert (He : Programs w !! "editor"
               = Some (mkTracked "" "" {[100]} 120000000000 120000000000))
    by (vm_compute; reflexivity).
  assert (Hrow : active w !! "browser" = Some 0) by (vm_compute; reflexivity).
  split; [exact Hb | split; [exact He|]].
  rewrite (ValidateActiveSessions_unfold probe w).
  pose proof (sweep_commits_dead_programs probe (map_to_list (Programs w)) w
                "browser" _ (reflexivity _) Hb) as [Hdead _].
  { simpl. apply non_empty_singleton_L. }
  pose proof (sweep_commits_dead_programs probe (map_to_list (Programs w)) w
                "editor" _ (reflexivity _) He) as [_ Halive].
  { simpl. apply non_empty_singleton_L. }
  destruct Hdead as (Hgone & _ & Hcommit).
  { simpl. intros pid Hin. apply elem_of_singleton in Hin as ->. reflexivity. }
  destruct Halive as (Hkept & _ & Hrows & _).
  { exists 100. simpl. split; [apply elem_of_singleton; reflexivity | reflexivity]. }
  destruct (Hcommit 0 Hrow (fun _ => eq_refl)) as (k & Hhist & _).
  split; [exact Hgone | split; [exact Hkept | split]].
  - exists k. exact Hhist.
  - exact Hrows.
Defined.

(** Scenario 4 of the specification: the sweep commits "browser" as
    [EndSession] does in scenario 3. *)
Example sweep_like_EndSession :
  let w' := exec (ValidateActiveSessions (fun _ => false)) (browser_open no_faults) in
  let w'' := exec (EndSession "browser" 5) (browser_open no_faults) in
  history w' = [mkHistoryRow "browser" 0 120000000000 120]
  ∧ history w'' = [mkHistoryRow "browser" 0 240000000000 240]
  ∧ lifetime w' !! "browser" = Some 120
  ∧ active w' !! "browser" = None
  ∧ Programs w' !! "browser" = None
  ∧ Programs w'' !! "browser" = None.
Proof. cbv zeta. repeat split; vm_compute; reflexivity. Qed.

(** C10.  When [EndSession] removes the last live PID of a program, and when
    a sweep tick finds all live PIDs of a program dead, the entry of the
    program is gone from the map afterwards, whatever the repositories
    answer during the commit, also when every call fails. *)
Theorem entry_deleted_after_commit_attempt (isProcessRunning : Z -> bool)
    (entries : list (string * Tracked)) (w : World) (name : string) (pid : Z)
    (t : Tracked) :
  Programs w !! name = Some t →
  (PIDs t = {[pid]} →
   Programs (exec (EndSession name pid) w) !! name = None)
  ∧ (entries ≡ₚ map_to_list (Programs w) →
     PIDs t ≠ ∅ →
     (∀ p, p ∈ PIDs t → isProcessRunning p = false) →
     Programs (exec (ValidateActiveSessions_in isProcessRunning entries) w) !! name
     = None).
Proof.
  intros Ht. split.
  - intros Hone. rewrite EndSession_Programs, Ht, Hone.
    rewrite decide_True by (by apply elem_of_singleton).
    rewrite decide_True by set_solver.
    apply lookup_delete_eq.
  - intros Hperm Hne Hall.
    destruct (ValidateActiveSessions_in_spec isProcessRunning entries w Hperm)
      as (Hdead & _).
    apply Hdead. by exists t.
Qed.

Lemma entry_deleted_after_commit_attempt_witness :
  let w := browser_open all_faults in
  Programs w !! "browser" = Some (mkTracked "" "" {[5]} 0 0)
  ∧ (∀ i, faulty w i = true)
  ∧ Programs (exec (EndSession "browser" 5) w) !! "browser" = None
  ∧ Programs (exec (ValidateActiveSessions (fun _ => false)) w) !! "browser" = None.
Proof.
  cbv zeta.
  assert (Ht : Programs (browser_open all_faults) !! "browser"
               = Some (mkTracked "" "" {[5]} 0 0)) by (vm_compute; reflexivity).
  pose proof (entry_deleted_after_commit_attempt (fun _ => false)
                (map_to_list (Programs (browser_open all_faults)))
                (browser_open all_faults) "browser" 5 _ Ht) as [Hend Hsweep].
  split; [exact Ht | split; [reflexivity | split]].
  - apply Hend. reflexivity.
  - rewrite (ValidateActiveSessions_unfold (fun _ => false)
               (browser_open all_faults)).
    apply Hsweep; [reflexivity | simpl; apply non_empty_singleton_L | reflexivity].
Defined.

(** *** The service control loop *)

Import Service.

(** The start-up sequence starts the heartbeat task as soon as one of the two
    integrations is enabled, and keeps the configuration. *)
Lemma startup_heartbeats (initial_pass : list string -> World -> World)
    (LogFile : option (option error)) (programs : list Program)
    (s : timekeepService) :
  let s' := fst (startup initial_pass LogFile (Ok programs) s) in
  config s' = config s
  ∧ snd (startup initial_pass LogFile (Ok programs) s) = None
  ∧ ((WakaTime_Enabled (config s) || Wakapi_Enabled (config s))%bool = true →
     heartbeats s' = true).
Proof.
  unfold startup. destruct LogFile as [[e|]|]; simpl.
  all: destruct (decide (0 < length programs)%nat); simpl.
  all: try destruct (seed programs [] (sessions s)) as [toTrack w]; simpl.
  all: destruct (WakaTime_Enabled (config s) || Wakapi_Enabled (config s))%bool;
    simpl; repeat split; done.
Qed.

(** The Pause handler leaves the session manager and the repositories as
    they are; the Continue handler changes them by the resynchronisation of
    the process monitor and by nothing else. *)
Lemma pause_continue_sessions (resync : World -> World) (st st' : Status)
    (s : timekeepService) :
  let paused := fst (handle resync (mkChangeRequest Pause st) s) in
  let resumed := fst (handle resync (mkChangeRequest Continue st') paused) in
  sessions paused = sessions s
  ∧ monitor paused = false
  ∧ sessions resumed = resync (sessions s)
  ∧ monitor resumed = true.
Proof.
  unfold handle. simpl.
  destruct (WakaTime_Enabled (config s)); simpl; repeat split; done.
Qed.

(** C8, at the failing input.  With the WakaTime integration disabled and the
    Wakapi integration enabled, the start-up sequence starts the heartbeat
    task, and the heartbeat task is still running after the Pause request:
    the handler stops it only when WakaTime is enabled. *)
Theorem pause_keeps_wakapi_heartbeats (initial_pass : list string -> World -> World)
    (resync : World -> World) (LogFile : option (option error))
    (programs : list Program) (w : World) (st : Status) :
  let s := new_service (mkConfig false true) w in
  let running := fst (Execute initial_pass resync LogFile (Ok programs) [] s) in
  let paused :=
    fst (Execute initial_pass resync LogFile (Ok programs)
           [mkChangeRequest Pause st] s) in
  heartbeats running = true
  ∧ heartbeats paused = true
  ∧ monitor paused = false
  ∧ last (statuses paused) = Some (mkStatus Paused cmdsAccepted).
Proof.
  cbv zeta. unfold Execute.
  destruct (startup_heartbeats initial_pass LogFile programs
              (new_service (mkConfig false true) w)) as (Hcfg & Hnone & Hbeat).
  destruct (startup initial_pass LogFile (Ok programs)
              (new_service (mkConfig false true) w))
    as [s1 o] eqn:Hstart.
  simpl in Hcfg, Hnone, Hbeat. subst o.
  specialize (Hbeat eq_refl).
  simpl. unfold handle. simpl. rewrite Hcfg. simpl.
  repeat split; try assumption.
  by rewrite last_snoc.
Qed.

(** * Further properties of the session manager *)

Lemma CreateSession_duplicate_holds (name : string) (pid : Z) (w : World)
    (t : Tracked) :
  Programs w !! name = Some t →
  pid ∈ PIDs t →
  exec (CreateSession name pid) w =
  mkWorld (<[name := set_LastSeen (clock w (reads w)) t]> (Programs w))
    (active w) (history w) (lifetime w) (calls w) (faulty w) (clock w)
    (S (reads w)) (logged w ++ [InfoAlreadyTracked pid name]).
Proof.
  intros Ht Hin. unfold CreateSession. unfold_monad. simpl.
  rewrite Ht. simpl. by rewrite decide_True.
Qed.

(** X1.  [CreateSession] for a PID that is already tracked refreshes [LastSeen],
    logs the duplicate and does nothing else: no repository call, the PIDs
    and [StartAt] as they were. *)
Theorem CreateSession_duplicate (name : string) (pid : Z) (w : World)
    (t : Tracked) :
  Programs w !! name = Some t →
  pid ∈ PIDs t →
  exec (CreateSession name pid) w =
  mkWorld (<[name := set_LastSeen (clock w (reads w)) t]> (Programs w))
    (active w) (history w) (lifetime w) (calls w) (faulty w) (clock w)
    (S (reads w)) (logged w ++ [InfoAlreadyTracked pid name]).
Proof. exact (CreateSession_duplicate_holds name pid w t). Qed.

Lemma CreateSession_duplicate_witness :
  let w := browser_open no_faults in
  let w' := exec (CreateSession "browser" 5) w in
  live_pids "browser" w' = {[5]}
  ∧ calls w' = calls w
  ∧ logged w' = logged w ++ [InfoAlreadyTracked 5 "browser"].
Proof.
  cbv zeta.
  assert (Ht : Programs (browser_open no_faults) !! "browser"
               = Some (mkTracked "" "" {[5]} 0 0)) by (vm_compute; reflexivity).
  assert (Hin : 5 ∈ PIDs (mkTracked "" "" {[5]} 0 0))
    by (simpl; apply elem_of_singleton; reflexivity).
  rewrite (CreateSession_duplicate "browser" 5 (browser_open no_faults) _ Ht Hin).
  split; [|split; reflexivity]. unfold live_pids. simpl. by rewrite lookup_insert_eq.
Defined.

Lemma CreateSession_first_pid_holds (name : string) (pid : Z) (w : World) :
  live_pids name w = ∅ →
  let now := clock w (reads w) in
  let w' := exec (CreateSession name pid) w in
  new_calls w w' = [CreateActiveSession name now]
  ∧ live_pids name w' = {[pid]}
  ∧ history w' = history w ∧ lifetime w' = lifetime w
  ∧ if faulty w (length (calls w))
    then active w' = active w
         ∧ new_logged w w' = [ErrorCreatingActive name ErrStorage]
    else active w' = <[name := now]> (active w)
         ∧ new_logged w w' = [InfoCreated name now].
Proof.
  intros Hempty now w'.
  assert (Hlive : live_pids name w' = {[pid]}).
  { subst w'. rewrite live_pids_CreateSession, decide_True by done.
    rewrite Hempty. apply (right_id_L ∅ (∪)). }
  split; [|split; [exact Hlive|]]; clear Hlive; subst w' now.
  all: assert (He : PIDs (default new_Tracked (Programs w !! name)) = ∅)
    by (unfold live_pids in Hempty; by destruct (Programs w !! name)).
  all: assert (Hnin : pid ∉ PIDs (default new_Tracked (Programs w !! name)))
    by (rewrite He; apply not_elem_of_empty).
  all: assert (Hsz : size ({[pid]} ∪ PIDs (default new_Tracked (Programs w !! name)))
                = 1%nat) by (by apply size_add_fresh).
  all: clear Hempty; unfold CreateSession; unfold_monad; simpl.
  all: change (match Programs w !! name with Some t => t | None => new_Tracked end)
    with (default new_Tracked (Programs w !! name)).
  all: generalize dependent (default new_Tracked (Programs w !! name));
    intros t He Hnin Hsz.
  all: rewrite (decide_False (P := pid ∈ PIDs t)) by done; simpl.
  all: rewrite (decide_True (P := size ({[pid]} ∪ PIDs t) = 1%nat)) by done; simpl.
  all: rewrite (decide_True (P := size ({[pid]} ∪ PIDs t) = 1%nat)) by done; simpl.
  all: destruct (faulty w (length (calls w))); simpl.
  all: try (by apply new_calls_app).
  all: repeat split; by apply new_logged_app.
Qed.

(** X2.  The [CreateSession] that finds no live PID for the program makes exactly
    one repository call, [CreateActiveSession] with the start time it has
    just recorded.  When that call fails, the failure is logged and the
    session stays open in memory, without an ActiveSession row. *)
Theorem CreateSession_first_pid (name : string) (pid : Z) (w : World) :
  live_pids name w = ∅ →
  let now := clock w (reads w) in
  let w' := exec (CreateSession name pid) w in
  new_calls w w' = [CreateActiveSession name now]
  ∧ live_pids name w' = {[pid]}
  ∧ history w' = history w ∧ lifetime w' = lifetime w
  ∧ if faulty w (length (calls w))
    then active w' = active w
         ∧ new_logged w w' = [ErrorCreatingActive name ErrStorage]
    else active w' = <[name := now]> (active w)
         ∧ new_logged w w' = [InfoCreated name now].
Proof. exact (CreateSession_first_pid_holds name pid w). Qed.

Lemma CreateSession_first_pid_witness :
  let w := fresh all_faults in
  let w' := exec (CreateSession "browser" 5) w in
  live_pids "browser" w = ∅
  ∧ new_calls w w' = [CreateActiveSession "browser" 0]
  ∧ live_pids "browser" w' = {[5]}.
Proof.
  cbv zeta.
  assert (He : live_pids "browser" (fresh all_faults) = ∅) by reflexivity.
  destruct (CreateSession_first_pid "browser" 5 (fresh all_faults) He)
    as (Hc & Hl & _).
  split; [exact He | split; [exact Hc | exact Hl]].
Defined.

Lemma CreateSession_additional_pid_holds (name : string) (pid : Z) (w : World)
    (t : Tracked) :
  Programs w !! name = Some t →
  PIDs t ≠ ∅ →
  pid ∉ PIDs t →
  exec (CreateSession name pid) w =
  mkWorld
    (<[name := mkTracked (Category t) (Project t) ({[pid]} ∪ PIDs t) (StartAt t)
                 (clock w (reads w))]> (Programs w))
    (active w) (history w) (lifetime w) (calls w) (faulty w) (clock w)
    (S (reads w)) (logged w ++ [InfoAddedPID pid name]).
Proof.
  intros Ht Hne Hnin.
  assert (Hsz : size ({[pid]} ∪ PIDs t) ≠ 1%nat) by (by rewrite size_add_fresh).
  unfold CreateSession. unfold_monad. simpl. rewrite Ht. simpl.
  rewrite (decide_False (P := pid ∈ PIDs t)) by done. simpl.
  rewrite (decide_False (P := size ({[pid]} ∪ PIDs t) = 1%nat)) by done. simpl.
  rewrite (decide_False (P := size ({[pid]} ∪ PIDs t) = 1%nat)) by done.
  reflexivity.
Qed.

(** X3.  [CreateSession] for a new PID of a program that already has live PIDs
    adds the PID, refreshes [LastSeen] and logs; it calls no repository and
    keeps [StartAt]. *)
Theorem CreateSession_additional_pid (name : string) (pid : Z) (w : World)
    (t : Tracked) :
  Programs w !! name = Some t →
  PIDs t ≠ ∅ →
  pid ∉ PIDs t →
  exec (CreateSession name pid) w =
  mkWorld
    (<[name := mkTracked (Category t) (Project t) ({[pid]} ∪ PIDs t) (StartAt t)
                 (clock w (reads w))]> (Programs w))
    (active w) (history w) (lifetime w) (calls w) (faulty w) (clock w)
    (S (reads w)) (logged w ++ [InfoAddedPID pid name]).
Proof. exact (CreateSession_additional_pid_holds name pid w t). Qed.

Lemma CreateSession_additional_pid_witness :
  let w := browser_open no_faults in
  let w' := exec (CreateSession "browser" 6) w in
  live_pids "browser" w' = {[6; 5]}
  ∧ calls w' = calls w.
Proof.
  cbv zeta.
  assert (Ht : Programs (browser_open no_faults) !! "browser"
               = Some (mkTracked "" "" {[5]} 0 0)) by (vm_compute; reflexivity).
  assert (Hne : PIDs (mkTracked "" "" {[5]} 0 0) ≠ ∅)
    by (simpl; apply non_empty_singleton_L).
  assert (Hnin : 6 ∉ PIDs (mkTracked "" "" {[5]} 0 0))
    by (simpl; intros H; apply elem_of_singleton in H; discriminate).
  rewrite (CreateSession_additional_pid "browser" 6 (browser_open no_faults) _
             Ht Hne Hnin).
  split; [|reflexivity]. unfold live_pids. simpl. by rewrite lookup_insert_eq.
Defined.

Lemma EndSession_untracked_holds (name : string) (pid : Z) (w : World) :
  pid ∉ live_pids name w →
  exec (EndSession name pid) w =
  exec (Printf (match Programs w !! name with
                | None => InfoNoActive name pid
                | Some _ => InfoNotTracked pid name
                end)) w.
Proof.
  unfold live_pids. intros Hnin. unfold EndSession. unfold_monad. simpl.
  destruct (Programs w !! name) as [t|]; simpl; [|reflexivity].
  by rewrite decide_False.
Qed.

(** X4.  [EndSession] for a program without an entry, or for a PID that is not
    among the live PIDs of the program, only writes a log line: it reads no
    clock, calls no repository and leaves the map alone. *)
Theorem EndSession_untracked (name : string) (pid : Z) (w : World) :
  pid ∉ live_pids name w →
  exec (EndSession name pid) w =
  exec (Printf (match Programs w !! name with
                | None => InfoNoActive name pid
                | Some _ => InfoNotTracked pid name
                end)) w.
Proof. exact (EndSession_untracked_holds name pid w). Qed.

Lemma EndSession_untracked_witness :
  let w := browser_open no_faults in
  exec (EndSession "browser" 6) w = exec (Printf (InfoNotTracked 6 "browser")) w
  ∧ exec (EndSession "editor" 5) w = exec (Printf (InfoNoActive "editor" 5)) w.
Proof.
  cbv zeta. split.
  - refine (EndSession_untracked "browser" 6 (browser_open no_faults) _).
    vm_compute. discriminate.
  - refine (EndSession_untracked "editor" 5 (browser_open no_faults) _).
    vm_compute. discriminate.
Defined.

Lemma EndSession_other_pids_remain_holds (name : string) (pid : Z) (w : World)
    (t : Tracked) :
  Programs w !! name = Some t →
  pid ∈ PIDs t →
  PIDs t ≠ {[pid]} →
  exec (EndSession name pid) w =
  mkWorld
    (<[name := mkTracked (Category t) (Project t) (PIDs t ∖ {[pid]}) (StartAt t)
                 (clock w (reads w))]> (Programs w))
    (active w) (history w) (lifetime w) (calls w) (faulty w) (clock w)
    (S (reads w)) (logged w).
Proof.
  intros Ht Hin Hne.
  assert (Hsz : size (PIDs t ∖ {[pid]}) ≠ 0%nat).
  { rewrite size_zero_iff. intros He. apply Hne.
    apply set_eq. intros x. rewrite elem_of_singleton.
    split; [intros Hx | by intros ->].
    destruct (decide (x = pid)) as [|Hx']; [done|].
    assert (Hd : x ∈ PIDs t ∖ {[pid]})
      by (apply elem_of_difference; split; [done | by rewrite elem_of_singleton]).
    rewrite He in Hd. by apply not_elem_of_empty in Hd. }
  unfold EndSession. unfold_monad. simpl. rewrite Ht. simpl.
  rewrite (decide_True (P := pid ∈ PIDs t)) by done. simpl.
  by rewrite (decide_False (P := size (PIDs t ∖ {[pid]}) = 0%nat)).
Qed.

(** X5.  [EndSession] for a live PID that is not the last one removes the PID and
    refreshes [LastSeen]; the session stays open: no repository call, no log
    line, [StartAt] as it was. *)
Theorem EndSession_other_pids_remain (name : string) (pid : Z) (w : World)
    (t : Tracked) :
  Programs w !! name = Some t →
  pid ∈ PIDs t →
  PIDs t ≠ {[pid]} →
  exec (EndSession name pid) w =
  mkWorld
    (<[name := mkTracked (Category t) (Project t) (PIDs t ∖ {[pid]}) (StartAt t)
                 (clock w (reads w))]> (Programs w))
    (active w) (history w) (lifetime w) (calls w) (faulty w) (clock w)
    (S (reads w)) (logged w).
Proof. exact (EndSession_other_pids_remain_holds name pid w t). Qed.

Lemma EndSession_other_pids_remain_witness :
  let w := exec (CreateSession "browser" 6) (browser_open no_faults) in
  let w' := exec (EndSession "browser" 5) w in
  live_pids "browser" w' = {[6]}
  ∧ calls w' = calls w ∧ history w' = [].
Proof.
  cbv zeta.
  set (w := exec (CreateSession "browser" 6) (browser_open no_faults)).
  assert (Ht : Programs w !! "browser"
               = Some (mkTracked "" "" {[6; 5]} 0 120000000000))
    by (vm_compute; reflexivity).
  assert (Hin : 5 ∈ PIDs (mkTracked "" "" {[6; 5]} 0 120000000000))
    by (simpl; set_solver).
  assert (Hne : PIDs (mkTracked "" "" {[6; 5]} 0 120000000000) ≠ {[5]}).
  { simpl. intros He. assert (H6 : (6 : Z) ∈ ({[5]} : gset Z)) by (rewrite <- He; set_solver).
    apply elem_of_singleton in H6. discriminate. }
  rewrite (EndSession_other_pids_remain "browser" 5 w _ Ht Hin Hne).
  split; [|split; reflexivity].
  unfold live_pids. cbn [Programs]. rewrite lookup_insert_eq. cbn [PIDs].
  clearbody w. set_solver.
Defined.

Lemma EndSession_last_pid_commits_holds (name : string) (pid : Z) (w : World)
    (t : Tracked) (startTime : Time) :
  Programs w !! name = Some t →
  PIDs t = {[pid]} →
  active w !! name = Some startTime →
  (∀ k, (k < 4)%nat → faulty w (length (calls w) + k) = false) →
  let endTime := clock w (S (reads w)) in
  let d := duration_seconds startTime endTime in
  let row := mkHistoryRow name startTime endTime d in
  exec (EndSession name pid) w =
  mkWorld (delete name (Programs w)) (delete name (active w))
    (history w ++ [row]) (alter (Z.add d) name (lifetime w))
    (calls w ++ [GetActiveSession name; AddToSessionHistory row;
                 UpdateLifetime name d; RemoveActiveSession name])
    (faulty w) (clock w) (S (S (reads w))) (logged w ++ [InfoMoved name d]).
Proof.
  intros Ht Hone Hrow Hok. cbv zeta.
  assert (Hin : pid ∈ PIDs t) by (rewrite Hone; by apply elem_of_singleton).
  assert (Hsz : size (PIDs t ∖ {[pid]}) = 0%nat)
    by (apply size_zero_iff; rewrite Hone; set_solver).
  unfold EndSession. unfold_monad. simpl. rewrite Ht. simpl.
  rewrite (decide_True (P := pid ∈ PIDs t)) by done. simpl.
  rewrite (decide_True (P := size (PIDs t ∖ {[pid]}) = 0%nat)) by done.
  match goal with
  | |- context [MoveSessionToHistory name ?w1] =>
      pose proof (MoveSessionToHistory_succeeds name w1 startTime Hrow Hok) as Hc;
      unfold exec in Hc;
      destruct (MoveSessionToHistory name w1) as [u w2]
  end.
  simpl in *. subst w2. simpl.
  by rewrite delete_insert_eq.
Qed.

(** X6.  Scenario 3: [EndSession] for the last live PID, over a storage layer
    that answers, closes the session: one history row from the stored start
    time to the time read by the commit, with the seconds that
    [int64(endTime.Sub(startTime).Seconds())] gives, the lifetime raised by
    that duration,
    the ActiveSession row and the map entry removed. *)
Theorem EndSession_last_pid_commits (name : string) (pid : Z) (w : World)
    (t : Tracked) (startTime : Time) :
  Programs w !! name = Some t →
  PIDs t = {[pid]} →
  active w !! name = Some startTime →
  (∀ k, (k < 4)%nat → faulty w (length (calls w) + k) = false) →
  let endTime := clock w (S (reads w)) in
  let d := duration_seconds startTime endTime in
  let row := mkHistoryRow name startTime endTime d in
  exec (EndSession name pid) w =
  mkWorld (delete name (Programs w)) (delete name (active w))
    (history w ++ [row]) (alter (Z.add d) name (lifetime w))
    (calls w ++ [GetActiveSession name; AddToSessionHistory row;
                 UpdateLifetime name d; RemoveActiveSession name])
    (faulty w) (clock w) (S (S (reads w))) (logged w ++ [InfoMoved name d]).
Proof. exact (EndSession_last_pid_commits_holds name pid w t startTime). Qed.

Lemma EndSession_last_pid_commits_witness :
  let w := browser_open no_faults in
  let w' := exec (EndSession "browser" 5) w in
  history w' = [mkHistoryRow "browser" 0 240000000000 240]
  ∧ lifetime w' !! "browser" = Some 240
  ∧ active w' !! "browser" = None
  ∧ Programs w' !! "browser" = None.
Proof.
  cbv zeta.
  assert (Ht : Programs (browser_open no_faults) !! "browser"
               = Some (mkTracked "" "" {[5]} 0 0)) by (vm_compute; reflexivity).
  assert (Hrow : active (browser_open no_faults) !! "browser" = Some 0)
    by (vm_compute; reflexivity).
  rewrite (EndSession_last_pid_commits "browser" 5 (browser_open no_faults) _ 0
             Ht eq_refl Hrow (fun _ _ => eq_refl)).
  repeat split; vm_compute; reflexivity.
Defined.

(** *** What every step keeps *)

Lemma MoveSessionToHistory_history (n : string) (w : World) :
  let w' := exec (MoveSessionToHistory n) w in
  history w `prefix_of` history w'
  ∧ (length (history w') ≤ S (length (history w)))%nat.
Proof.
  unfold MoveSessionToHistory. unfold_monad.
  storage_cases; rewrite ?length_app; simpl;
    (split; [try done; by apply prefix_app_r | lia]).
Qed.

Lemma CreateSession_storage (name : string) (pid : Z) (w : World) :
  let w' := exec (CreateSession name pid) w in
  history w' = history w ∧ lifetime w' = lifetime w ∧ faulty w' = faulty w.
Proof.
  unfold CreateSession. unfold_monad. simpl.
  destruct (Programs w !! name) as [t|]; simpl;
    repeat (case_decide; simpl); storage_cases; auto.
Qed.

Lemma EndSession_history (name : string) (pid : Z) (w : World) :
  let w' := exec (EndSession name pid) w in
  history w `prefix_of` history w' ∧ faulty w' = faulty w.
Proof.
  unfold EndSession. unfold_monad. simpl.
  destruct (Programs w !! name) as [t|]; simpl; [|done].
  destruct (decide (pid ∈ PIDs t)); simpl; [|done].
  destruct (decide (size (PIDs t ∖ {[pid]}) = 0%nat)); simpl; [|done].
  match goal with
  | |- context [MoveSessionToHistory name ?w1] =>
      pose proof (MoveSessionToHistory_history name w1) as [Hh _];
      pose proof (MoveSessionToHistory_frame name w1) as (_ & Hf & _);
      unfold exec in Hh, Hf;
      destruct (MoveSessionToHistory name w1) as [u w2]
  end.
  simpl in *. done.
Qed.

Lemma clean_programs_history (names : list string) :
  ∀ w : World,
    let w' := exec (clean_programs names) w in
    history w `prefix_of` history w' ∧ faulty w' = faulty w.
Proof.
  induction names as [|n names IH]; intros w; simpl; [done|].
  rewrite !exec_seq.
  destruct (MoveSessionToHistory_history n w) as [Hh _].
  destruct (MoveSessionToHistory_frame n w) as (_ & Hf & _).
  set (w1 := exec (MoveSessionToHistory n) w) in *.
  destruct (IH (exec (delete_program n) w1)) as [Hh' Hf'].
  split.
  - etrans; [exact Hh | exact Hh'].
  - rewrite Hf'. exact Hf.
Qed.

Lemma ValidateActiveSessions_in_history (isProcessRunning : Z -> bool)
    (entries : list (string * Tracked)) (w : World) :
  let w' := exec (ValidateActiveSessions_in isProcessRunning entries) w in
  history w `prefix_of` history w' ∧ faulty w' = faulty w.
Proof.
  unfold ValidateActiveSessions_in, exec, bind.
  destruct (scan_programs_log_only isProcessRunning entries [] w)
    as (_ & _ & Hh & _ & _ & Hf & _).
  destruct (scan_programs isProcessRunning entries [] w) as [names w1].
  simpl in Hh, Hf.
  destruct (clean_programs_history names w1) as [Hh' Hf'].
  unfold exec in Hh', Hf'. rewrite <- Hh, <- Hf. done.
Qed.

Lemma perform_history (a : Action) (w : World) :
  history w `prefix_of` history (exec (perform a) w)
  ∧ faulty (exec (perform a) w) = faulty w.
Proof.
  destruct a as [[name pid | name pid] | isProcessRunning]; simpl.
  - destruct (CreateSession_storage name pid w) as (-> & _ & ->). done.
  - apply EndSession_history.
  - apply (ValidateActiveSessions_in_history isProcessRunning
             (map_to_list (Programs w)) w).
Qed.

(** *** Entries and live PIDs *)

Lemma CreateSession_no_idle_entry (name : string) (pid : Z) (w : World) :
  no_idle_entry w → no_idle_entry (exec (CreateSession name pid) w).
Proof.
  intros Hinv key t'. rewrite CreateSession_Programs.
  destruct (decide (key = name)) as [->|Hne].
  - rewrite lookup_insert_eq. intros [= <-]. unfold after_create.
    repeat case_decide; simpl; set_solver.
  - rewrite lookup_insert_ne by done. apply Hinv.
Qed.

Lemma EndSession_no_idle_entry (name : string) (pid : Z) (w : World) :
  no_idle_entry w → no_idle_entry (exec (EndSession name pid) w).
Proof.
  intros Hinv key t'. rewrite EndSession_Programs.
  destruct (Programs w !! name) as [t|] eqn:Ht; [|apply Hinv].
  destruct (decide (pid ∈ PIDs t)); [|apply Hinv].
  destruct (decide (PIDs t ∖ {[pid]} = ∅)) as [He|He].
  - intros Hk. apply lookup_delete_Some in Hk as [_ Hk]. by apply (Hinv key).
  - destruct (decide (key = name)) as [->|Hne].
    + rewrite lookup_insert_eq. by intros [= <-].
    + rewrite lookup_insert_ne by done. apply Hinv.
Qed.

(** A sweep tick, for any list of entries it is run on, removes entries or
    leaves them as they are: it adds none and changes none. *)
Lemma ValidateActiveSessions_in_subseteq (isProcessRunning : Z -> bool)
    (entries : list (string * Tracked)) (w : World) :
  Programs (exec (ValidateActiveSessions_in isProcessRunning entries) w)
  ⊆ Programs w.
Proof.
  unfold ValidateActiveSessions_in, exec, bind.
  destruct (scan_programs_log_only isProcessRunning entries [] w) as (HP & _).
  destruct (scan_programs isProcessRunning entries [] w) as [names w1].
  simpl in HP.
  destruct (clean_programs_spec names w1) as (Hin & Hout & _).
  unfold exec in Hin, Hout.
  apply map_subseteq_spec. intros key t Hk.
  destruct (decide (key ∈ names)) as [Hd|Hd].
  - rewrite Hin in Hk by done. discriminate.
  - rewrite Hout in Hk by done. by rewrite <- HP.
Qed.

Lemma perform_no_idle_entry (a : Action) (w : World) :
  no_idle_entry w → no_idle_entry (exec (perform a) w).
Proof.
  destruct a as [[name pid | name pid] | isProcessRunning]; simpl.
  - apply CreateSession_no_idle_entry.
  - apply EndSession_no_idle_entry.
  - intros Hinv key t Hk. apply (Hinv key).
    eapply (proj1 (map_subseteq_spec _ _)); [|exact Hk].
    apply (ValidateActiveSessions_in_subseteq isProcessRunning
             (map_to_list (Programs w)) w).
Qed.

Lemma no_idle_entry_invariant_holds (actions : list Action) :
  ∀ w : World, no_idle_entry w → no_idle_entry (exec (perform_all actions) w).
Proof.
  induction actions as [|a actions IH]; intros w Hinv; simpl; [done|].
  rewrite exec_seq. by apply IH, perform_no_idle_entry.
Qed.

(** X8.  Notifications and sweep ticks never leave an entry without live PIDs in
    the map: when every entry has a live PID before, every entry has one
    after (entries without PIDs only come from [EnsureProgram]). *)
Theorem no_idle_entry_invariant (actions : list Action) :
  ∀ w : World, no_idle_entry w → no_idle_entry (exec (perform_all actions) w).
Proof. exact (no_idle_entry_invariant_holds actions). Qed.

Lemma no_idle_entry_invariant_witness :
  let w := exec (perform_all [Notify (Started "browser" 5);
                              Notify (Started "editor" 100);
                              Tick (fun pid => bool_decide (pid = 100));
                              Notify (Stopped "editor" 100)]) (fresh no_faults) in
  no_idle_entry (fresh no_faults) ∧ no_idle_entry w.
Proof.
  cbv zeta.
  assert (H0 : no_idle_entry (fresh no_faults)).
  { intros name t Hk. unfold fresh, NewSessionManager in Hk. simpl in Hk.
    by rewrite lookup_empty in Hk. }
  split; [exact H0|].
  exact (no_idle_entry_invariant _ (fresh no_faults) H0).
Defined.

(** *** The ActiveSession table over a storage layer that answers *)

Lemma MoveSessionToHistory_active (n : string) (w : World) :
  (∀ i, faulty w i = false) →
  active (exec (MoveSessionToHistory n) w) = delete n (active w).
Proof.
  intros Hok. destruct (active w !! n) as [startTime|] eqn:Hrow.
  - by rewrite (MoveSessionToHistory_succeeds n w startTime Hrow (λ k _, Hok _)).
  - destruct (commit_without_record n w Hrow) as (_ & -> & _).
    by rewrite delete_id.
Qed.

Lemma commit_and_remove_mirrored (n : string) (w : World) :
  (∀ i, faulty w i = false) → mirrored w →
  mirrored (exec (MoveSessionToHistory n ;;; delete_program n) w).
Proof.
  intros Hok Hm key. rewrite exec_seq.
  unfold exec at 1, delete_program. simpl.
  rewrite (proj1 (MoveSessionToHistory_frame n w)).
  rewrite MoveSessionToHistory_active by done.
  destruct (decide (key = n)) as [->|Hne].
  - by rewrite !lookup_delete_eq.
  - rewrite !lookup_delete_ne by done. apply Hm.
Qed.

Lemma clean_programs_mirrored (names : list string) :
  ∀ w : World,
    (∀ i, faulty w i = false) → mirrored w →
    mirrored (exec (clean_programs names) w).
Proof.
  induction names as [|n names IH]; intros w Hok Hm; simpl; [done|].
  change (MoveSessionToHistory n ;;; delete_program n ;;; clean_programs names)
    with (MoveSessionToHistory n ;;; (delete_program n ;;; clean_programs names)).
  rewrite exec_seq, exec_seq. apply IH.
  - intros i. unfold exec at 1, delete_program. simpl.
    rewrite (proj1 (proj2 (MoveSessionToHistory_frame n w))). apply Hok.
  - pose proof (commit_and_remove_mirrored n w Hok Hm) as Hm'.
    by rewrite exec_seq in Hm'.
Qed.

Lemma ValidateActiveSessions_in_mirrored (isProcessRunning : Z -> bool)
    (entries : list (string * Tracked)) (w : World) :
  (∀ i, faulty w i = false) → mirrored w →
  mirrored (exec (ValidateActiveSessions_in isProcessRunning entries) w).
Proof.
  intros Hok Hm. unfold ValidateActiveSessions_in, exec, bind.
  destruct (scan_programs_log_only isProcessRunning entries [] w)
    as (HP & Ha & _ & _ & _ & Hf & _).
  destruct (scan_programs isProcessRunning entries [] w) as [names w1].
  simpl in HP, Ha, Hf.
  apply (clean_programs_mirrored names w1).
  - intros i. rewrite Hf. apply Hok.
  - intros key. rewrite HP, Ha. apply Hm.
Qed.

Lemma CreateSession_mirrored (name : string) (pid : Z) (w : World) :
  (∀ i, faulty w i = false) → mirrored w →
  mirrored (exec (CreateSession name pid) w).
Proof.
  intros Hok Hm key.
  destruct (decide (live_pids name w = ∅)) as [He|He].
  - destruct (CreateSession_first_pid_holds name pid w He) as (_ & _ & _ & _ & Hact).
    rewrite Hok in Hact. destruct Hact as [-> _].
    rewrite CreateSession_Programs.
    destruct (decide (key = name)) as [->|Hne].
    + rewrite !lookup_insert_eq. simpl. f_equal.
      unfold after_create.
      assert (Hp : PIDs (default new_Tracked (Programs w !! name)) = ∅).
      { unfold live_pids in He. by destruct (Programs w !! name). }
      rewrite Hp. rewrite decide_False by set_solver. by rewrite decide_True.
    + rewrite !lookup_insert_ne by done. apply Hm.
  - unfold live_pids in He.
    destruct (Programs w !! name) as [t|] eqn:Ht; [|done].
    destruct (decide (pid ∈ PIDs t)) as [Hin|Hnin].
    + rewrite (CreateSession_duplicate_holds name pid w t Ht Hin). simpl.
      destruct (decide (key = name)) as [->|Hne].
      * rewrite lookup_insert_eq. simpl. by rewrite Hm, Ht.
      * rewrite lookup_insert_ne by done. apply Hm.
    + rewrite (CreateSession_additional_pid_holds name pid w t Ht He Hnin). simpl.
      destruct (decide (key = name)) as [->|Hne].
      * rewrite lookup_insert_eq. simpl. by rewrite Hm, Ht.
      * rewrite lookup_insert_ne by done. apply Hm.
Qed.

Lemma EndSession_mirrored (name : string) (pid : Z) (w : World) :
  (∀ i, faulty w i = false) → mirrored w →
  mirrored (exec (EndSession name pid) w).
Proof.
  intros Hok Hm key.
  destruct (decide (pid ∈ live_pids name w)) as [Hin|Hnin].
  - unfold live_pids in Hin.
    destruct (Programs w !! name) as [t|] eqn:Ht;
      [|by apply not_elem_of_empty in Hin].
    destruct (decide (PIDs t = {[pid]})) as [Hone|Hmore].
    + assert (Hrow : active w !! name = Some (StartAt t)) by (by rewrite Hm, Ht).
      rewrite (EndSession_last_pid_commits_holds name pid w t _ Ht Hone Hrow
                 (λ k _, Hok _)). simpl.
      destruct (decide (key = name)) as [->|Hne].
      * by rewrite !lookup_delete_eq.
      * rewrite !lookup_delete_ne by done. apply Hm.
    + rewrite (EndSession_other_pids_remain_holds name pid w t Ht Hin Hmore). simpl.
      destruct (decide (key = name)) as [->|Hne].
      * rewrite lookup_insert_eq. simpl. by rewrite Hm, Ht.
      * rewrite lookup_insert_ne by done. apply Hm.
  - rewrite (EndSession_untracked_holds name pid w Hnin). apply Hm.
Qed.

Lemma perform_mirrored (a : Action) (w : World) :
  (∀ i, faulty w i = false) → mirrored w → mirrored (exec (perform a) w).
Proof.
  destruct a as [[name pid | name pid] | isProcessRunning]; simpl.
  - apply CreateSession_mirrored.
  - apply EndSession_mirrored.
  - apply (ValidateActiveSessions_in_mirrored isProcessRunning
             (map_to_list (Programs w)) w).
Qed.

Lemma perform_all_mirrored (actions : list Action) :
  ∀ w : World,
    (∀ i, faulty w i = false) → mirrored w →
    mirrored (exec (perform_all actions) w).
Proof.
  induction actions as [|a actions IH]; intros w Hok Hm; simpl; [done|].
  rewrite exec_seq. apply IH.
  - intros i. rewrite (proj2 (perform_history a w)). apply Hok.
  - by apply perform_mirrored.
Qed.

(** X9.  Over a storage layer that never fails, and starting from a new manager
    with an empty ActiveSession table, the table mirrors the map after any
    interleaving of notifications and sweep ticks: a program has a row
    exactly when it has live PIDs, and the row holds the entry's [StartAt]. *)
Theorem active_sessions_mirror_live_programs (actions : list Action)
    (hist : list HistoryRow) (life : gmap string Z) (flt : nat -> bool)
    (clk : nat -> Time) (name : string) :
  (∀ i, flt i = false) →
  let w := exec (perform_all actions) (NewSessionManager ∅ hist life flt clk) in
  active w !! name = StartAt <$> Programs w !! name
  ∧ (is_Some (active w !! name) ↔ live_pids name w ≠ ∅).
Proof.
  intros Hok w.
  assert (Hm : mirrored w).
  { apply perform_all_mirrored; [exact Hok|].
    intros key. simpl. by rewrite !lookup_empty. }
  assert (Hn : no_idle_entry w).
  { apply no_idle_entry_invariant_holds. intros key t Hk. simpl in Hk.
    by rewrite lookup_empty in Hk. }
  split; [apply Hm|].
  rewrite Hm. unfold live_pids.
  destruct (Programs w !! name) as [t|] eqn:Ht; simpl.
  - split; [intros _; by apply (Hn name) | by eexists].
  - split; [by intros [? ?] | done].
Qed.

Lemma active_sessions_mirror_live_programs_witness :
  let w := exec (perform_all [Notify (Started "browser" 5);
                              Notify (Started "editor" 100);
                              Tick (fun pid => bool_decide (pid = 100))])
             (NewSessionManager ∅ [] ∅ no_faults two_minutes) in
  (is_Some (active w !! "browser") ↔ live_pids "browser" w ≠ ∅)
  ∧ active w !! "editor" = StartAt <$> Programs w !! "editor".
Proof.
  cbv zeta. split.
  - exact (proj2 (active_sessions_mirror_live_programs _ [] ∅ no_faults
                    two_minutes "browser" (fun _ => eq_refl))).
  - exact (proj1 (active_sessions_mirror_live_programs _ [] ∅ no_faults
                    two_minutes "editor" (fun _ => eq_refl))).
Defined.

(** *** Sweep ticks that find nothing to clean *)

Lemma scan_programs_nothing (isProcessRunning : Z -> bool)
    (entries : list (string * Tracked)) :
  (∀ name t, (name, t) ∈ entries → PIDs t ≠ ∅ →
     ∃ pid, pid ∈ PIDs t ∧ isProcessRunning pid = true) →
  ∀ (acc : list string) (w : World),
    scan_programs isProcessRunning entries acc w = (acc, w).
Proof.
  induction entries as [|[n t] entries IH]; intros Halive acc w; simpl; [done|].
  assert (IH' : scan_programs isProcessRunning entries acc w = (acc, w)).
  { apply IH. intros name t' Hin. apply (Halive name t'), elem_of_cons. by right. }
  destruct (decide (size (PIDs t) = 0%nat)) as [Hsz|Hsz]; [exact IH'|].
  destruct (allPIDsGone isProcessRunning (elements (PIDs t))) eqn:Hgone;
    [|exact IH'].
  destruct (Halive n t) as (pid & Hin & Hrun).
  - apply elem_of_cons. by left.
  - by rewrite <- size_zero_iff.
  - rewrite allPIDsGone_true in Hgone.
    rewrite Hgone in Hrun by (by apply elem_of_elements). discriminate.
Qed.

(** X10.  A sweep tick on which every program with live PIDs has one that the
    probe reports alive changes nothing at all: no entry, no table, no log
    line, no repository call, no clock reading. *)
Theorem sweep_without_dead_program (isProcessRunning : Z -> bool)
    (entries : list (string * Tracked)) (w : World) :
  entries ≡ₚ map_to_list (Programs w) →
  (∀ name t, Programs w !! name = Some t → PIDs t ≠ ∅ →
     ∃ pid, pid ∈ PIDs t ∧ isProcessRunning pid = true) →
  exec (ValidateActiveSessions_in isProcessRunning entries) w = w.
Proof.
  intros Hperm Halive. unfold ValidateActiveSessions_in, exec, bind.
  rewrite scan_programs_nothing; [reflexivity|].
  intros name t Hin. apply (Halive name t).
  apply elem_of_map_to_list. by rewrite <- Hperm.
Qed.

Lemma sweep_without_dead_program_witness :
  exec (ValidateActiveSessions (fun _ => true)) (browser_open no_faults)
  = browser_open no_faults.
Proof.
  rewrite (ValidateActiveSessions_unfold (fun _ => true)
             (browser_open no_faults)).
  refine (sweep_without_dead_program (fun _ => true)
            (map_to_list (Programs (browser_open no_faults)))
            (browser_open no_faults) (reflexivity _) _).
  intros name t Ht Hne. apply set_choose_L in Hne as [pid Hin].
  by exists pid.
Defined.

(** X11.  A sweep tick never adds or changes an entry, and an entry without live
    PIDs (as [EnsureProgram] makes them) stays in the map whatever the probe
    answers. *)
Theorem sweep_keeps_idle_entries (isProcessRunning : Z -> bool)
    (entries : list (string * Tracked)) (w : World) (name : string)
    (t : Tracked) :
  entries ≡ₚ map_to_list (Programs w) →
  Programs w !! name = Some t →
  PIDs t = ∅ →
  let w' := exec (ValidateActiveSessions_in isProcessRunning entries) w in
  Programs w' !! name = Some t ∧ Programs w' ⊆ Programs w.
Proof.
  intros Hperm Ht He w'. split; [|apply ValidateActiveSessions_in_subseteq].
  destruct (ValidateActiveSessions_in_spec isProcessRunning entries w Hperm)
    as (_ & Halive & _).
  subst w'. rewrite Halive; [exact Ht|].
  intros (t' & Ht' & Hne & _). rewrite Ht in Ht'. injection Ht' as <-. done.
Qed.

Lemma sweep_keeps_idle_entries_witness :
  let w := exec (EnsureProgram "Editor" "dev" "") (browser_open no_faults) in
  let w' := exec (ValidateActiveSessions (fun _ => false)) w in
  Programs w !! "editor" = Some (mkTracked "dev" "" ∅ 0 0)
  ∧ Programs w' !! "editor" = Some (mkTracked "dev" "" ∅ 0 0)
  ∧ Programs w' !! "browser" = None.
Proof.
  cbv zeta.
  set (w := exec (EnsureProgram "Editor" "dev" "") (browser_open no_faults)).
  assert (Ht : Programs w !! "editor" = Some (mkTracked "dev" "" ∅ 0 0))
    by (vm_compute; reflexivity).
  split; [exact Ht|]. split; [|vm_compute; reflexivity].
  rewrite (ValidateActiveSessions_unfold (fun _ => false) w).
  exact (proj1 (sweep_keeps_idle_entries (fun _ => false)
                  (map_to_list (Programs w)) w "editor" _
                  (reflexivity _) Ht eq_refl)).
Defined.

(** * Further properties of the service control loop *)

(** X12.  When the program catalog cannot be read, [Execute] reports
    [StartPending] and then [Stopped], returns [(false, 1)] without looking
    at any request, and has started no task and touched no session.  Its log
    has the entry line, the error of the log file's [Sync] if there is a log
    file and its [Sync] fails, and the error line of the read. *)
Theorem Execute_catalog_failure (initial_pass : list string -> World -> World)
    (resync : World -> World) (LogFile : option (option error)) (e : error)
    (r : list ChangeRequest) (s : timekeepService) :
  let s' := fst (Execute initial_pass resync LogFile (Err e) r s) in
  snd (Execute initial_pass resync LogFile (Err e) r s) = Some (false, 1)
  ∧ statuses s' = statuses s ++ [mkStatus StartPending 0; mkStatus StateStopped 0]
  ∧ service_log s'
    = service_log s ++ [InfoEntered]
      ++ match LogFile with
         | Some (Some err) => [ErrorSyncLogFile err]
         | _ => []
         end
      ++ [ErrorGetPrograms]
  ∧ sessions s' = sessions s
  ∧ heartbeats s' = heartbeats s ∧ monitor s' = monitor s
  ∧ listener s' = listener s ∧ validator s' = validator s.
Proof.
  unfold Execute, startup.
  destruct LogFile as [[err|]|]; simpl; rewrite <- !app_assoc; simpl; done.
Qed.

Lemma seed_spec (programs : list Program) :
  ∀ (toTrack : list string) (w : World),
    let r := seed programs toTrack w in
    fst r = toTrack ++ (Name <$> programs)
    ∧ (∀ p, p ∈ programs → is_Some (Programs (snd r) !! ToLower (Name p)))
    ∧ (∀ key t, Programs w !! key = Some t →
         ∃ t', Programs (snd r) !! key = Some t' ∧ PIDs t' = PIDs t
               ∧ StartAt t' = StartAt t ∧ LastSeen t' = LastSeen t)
    ∧ (∀ key, key ∉ (ToLower ∘ Name <$> programs) →
         Programs (snd r) !! key = Programs w !! key)
    ∧ active (snd r) = active w ∧ history (snd r) = history w
    ∧ lifetime (snd r) = lifetime w ∧ calls (snd r) = calls w
    ∧ logged (snd r) = logged w.
Proof.
  induction programs as [|p programs IH]; intros toTrack w; simpl.
  - rewrite app_nil_r. repeat split; try done.
    + intros p Hin. by apply elem_of_nil in Hin.
    + intros key t Ht. by exists t.
  - unfold bind.
    set (category := if Valid (ProgramCategory p)
                     then String_ (ProgramCategory p) else "").
    set (project := if Valid (ProgramProject p)
                    then String_ (ProgramProject p) else "").
    pose proof (EnsureProgram_Programs (Name p) category project w) as HP.
    pose proof (EnsureProgram_storage (Name p) category project w)
      as (Ha & Hh & Hl & Hc & Hlog).
    unfold exec in HP, Ha, Hh, Hl, Hc, Hlog.
    destruct (EnsureProgram (Name p) category project w) as [u w1].
    simpl in HP, Ha, Hh, Hl, Hc, Hlog.
    destruct (IH (toTrack ++ [Name p]) w1)
      as (Hnames & Hin & Hkeep & Hother & Ha' & Hh' & Hl' & Hc' & Hlog').
    repeat split.
    + rewrite Hnames. by rewrite <- app_assoc.
    + intros q Hq. apply elem_of_cons in Hq as [->|Hq]; [|by apply Hin].
      assert (Hs : is_Some (Programs w1 !! ToLower (Name p)))
        by (rewrite HP, lookup_insert_eq; by eexists).
      destruct Hs as [t1 Ht1].
      destruct (Hkeep _ _ Ht1) as (t' & Ht' & _). by exists t'.
    + intros key t Ht.
      assert (Hs : ∃ t1, Programs w1 !! key = Some t1 ∧ PIDs t1 = PIDs t
                         ∧ StartAt t1 = StartAt t ∧ LastSeen t1 = LastSeen t).
      { rewrite HP. destruct (decide (key = ToLower (Name p))) as [->|Hne].
        - rewrite lookup_insert_eq, Ht. by eexists.
        - rewrite lookup_insert_ne by done. by exists t. }
      destruct Hs as (t1 & Ht1 & HP1 & HS1 & HL1).
      destruct (Hkeep _ _ Ht1) as (t' & Ht' & HP' & HS' & HL').
      exists t'. repeat split; congruence.
    + intros key Hkey. simpl in Hkey. apply not_elem_of_cons in Hkey as [Hne Hkey].
      rewrite Hother by done. rewrite HP. by rewrite lookup_insert_ne.
    + congruence.
    + congruence.
    + congruence.
    + congruence.
    + congruence.
Qed.

(** X13.  Seeding the manager from the catalog: the process monitor is handed the
    names as the catalog has them, in catalog order, while every program
    gets an entry under its lower-cased name; the sessions that are open
    keep their PIDs, [StartAt] and [LastSeen]; the entries under other keys
    are left alone, and no repository is called. *)
Theorem seed_catalog (programs : list Program) (w : World) :
  let toTrack := fst (seed programs [] w) in
  let w' := snd (seed programs [] w) in
  toTrack = Name <$> programs
  ∧ (∀ p, p ∈ programs → is_Some (Programs w' !! ToLower (Name p)))
  ∧ (∀ key t, Programs w !! key = Some t →
       ∃ t', Programs w' !! key = Some t' ∧ PIDs t' = PIDs t
             ∧ StartAt t' = StartAt t ∧ LastSeen t' = LastSeen t)
  ∧ (∀ key, key ∉ (ToLower ∘ Name <$> programs) →
       Programs w' !! key = Programs w !! key)
  ∧ calls w' = calls w ∧ active w' = active w ∧ history w' = history w.
Proof.
  destruct (seed_spec programs [] w)
    as (Hn & Hin & Hkeep & Hother & Ha & Hh & _ & Hc & _).
  repeat split; auto.
Qed.

(** X14.  The start-up sequence over a catalog that was read: the listener and the
    validator are started and [Running] is reported in every case; the
    process monitor is started, after its initial pass over the seeded
    manager, only when the catalog is not empty; with an empty catalog the
    session manager is not touched. *)
Theorem startup_tasks (initial_pass : list string -> World -> World)
    (LogFile : option (option error)) (programs : list Program)
    (s : timekeepService) :
  let s' := fst (startup initial_pass LogFile (Ok programs) s) in
  snd (startup initial_pass LogFile (Ok programs) s) = None
  ∧ listener s' = true ∧ validator s' = true
  ∧ last (statuses s') = Some (mkStatus Running 7)
  ∧ heartbeats s'
    = (heartbeats s || WakaTime_Enabled (config s) || Wakapi_Enabled (config s))%bool
  ∧ monitor s' = (if programs is [] then monitor s else true)
  ∧ sessions s'
    = (if programs is [] then sessions s
       else initial_pass (Name <$> programs) (snd (seed programs [] (sessions s)))).
Proof.
  unfold startup. destruct LogFile as [[err|]|]; simpl.
  all: destruct programs as [|p programs].
  all: try (simpl;
    destruct (WakaTime_Enabled (config s)), (Wakapi_Enabled (config s));
      simpl; rewrite ?last_snoc, ?orb_true_r, ?orb_false_r; done).
  all: rewrite decide_True by (simpl; lia).
  all: pose proof (seed_spec (p :: programs) [] (sessions s)) as (Hn & _).
  all: destruct (seed (p :: programs) [] (sessions s)) as [toTrack w].
  all: simpl in Hn; subst toTrack; simpl.
  all: destruct (WakaTime_Enabled (config s)), (Wakapi_Enabled (config s));
      simpl; rewrite ?last_snoc, ?orb_true_r, ?orb_false_r; done.
Qed.

(** *** The main loop *)

Lemma handle_no_stop (resync : World -> World) (c : ChangeRequest)
    (s : timekeepService) :
  Command c ≠ Stop → Command c ≠ Shutdown →
  let s' := fst (handle resync c s) in
  snd (handle resync c s) = false
  ∧ storage_open s' = storage_open s ∧ cancelled s' = cancelled s
  ∧ listener s' = listener s ∧ validator s' = validator s.
Proof.
  intros H1 H2. unfold handle.
  destruct (Command c); try done; simpl.
  destruct (WakaTime_Enabled (config s)); done.
Qed.

Lemma handle_stop (resync : World -> World) (c : ChangeRequest)
    (s : timekeepService) :
  Command c = Stop ∨ Command c = Shutdown →
  let s' := fst (handle resync c s) in
  snd (handle resync c s) = true
  ∧ heartbeats s' = false ∧ monitor s' = false ∧ listener s' = false
  ∧ validator s' = false ∧ storage_open s' = false ∧ cancelled s' = true
  ∧ sessions s' = sessions s
  ∧ statuses s' = statuses s ++ [mkStatus StopPending 0].
Proof. unfold handle. intros [-> | ->]; simpl; done. Qed.

(** X15.  The first Stop or Shutdown request ends the loop: [Execute]'s loop
    returns [(false, 0)] with the heartbeat task, the process monitor, the
    listener and the validator stopped and the storage closed, the last
    status reported being [StopPending]; the requests that follow it are
    never looked at. *)
Theorem mainloop_stops (resync : World -> World) (before after : list ChangeRequest)
    (c : ChangeRequest) :
  ∀ s : timekeepService,
    Forall (λ c, Command c ≠ Stop ∧ Command c ≠ Shutdown) before →
    Command c = Stop ∨ Command c = Shutdown →
    let s' := fst (mainloop resync (before ++ c :: after) s) in
    mainloop resync (before ++ c :: after) s = mainloop resync (before ++ [c]) s
    ∧ snd (mainloop resync (before ++ c :: after) s) = Some (false, 0)
    ∧ heartbeats s' = false ∧ monitor s' = false ∧ listener s' = false
    ∧ validator s' = false ∧ storage_open s' = false ∧ cancelled s' = true
    ∧ last (statuses s') = Some (mkStatus StopPending 0).
Proof.
  induction before as [|b before IH]; intros s Hbefore Hstop; simpl.
  - destruct (handle_stop resync c s Hstop)
      as (Hbrk & Hh & Hm & Hl & Hv & Ho & Hc & _ & Hst).
    destruct (handle resync c s) as [s1 brk]. simpl in *. subst brk. simpl.
    rewrite Hst, last_snoc. done.
  - apply Forall_cons in Hbefore as [[Hb1 Hb2] Hbefore].
    destruct (handle_no_stop resync b s Hb1 Hb2) as (Hbrk & _).
    destruct (handle resync b s) as [s1 brk]. simpl in Hbrk. subst brk.
    by apply IH.
Qed.

Lemma mainloop_stops_witness :
  let s := new_service (Service.mkConfig true false) (fresh no_faults) in
  let st := mkStatus Running 7 in
  let r := [mkChangeRequest Pause st; mkChangeRequest Stop st;
            mkChangeRequest Continue st] in
  snd (mainloop id r s) = Some (false, 0)
  ∧ mainloop id r s
    = mainloop id [mkChangeRequest Pause st; mkChangeRequest Stop st] s.
Proof.
  cbv zeta.
  pose proof (mainloop_stops id
                [mkChangeRequest Pause (mkStatus Running 7)]
                [mkChangeRequest Continue (mkStatus Running 7)]
                (mkChangeRequest Stop (mkStatus Running 7))
                (new_service (Service.mkConfig true false) (fresh no_faults)))
    as H.
  destruct H as (Heq & Hcode & _).
  - repeat constructor; discriminate.
  - by left.
  - split; [exact Hcode | exact Heq].
Defined.

(** X16.  Without a Stop or Shutdown request the loop does not return: it goes on
    waiting, with the storage open and the listener and the validator as
    they were. *)
Theorem mainloop_waits (resync : World -> World) (r : list ChangeRequest) :
  ∀ s : timekeepService,
    Forall (λ c, Command c ≠ Stop ∧ Command c ≠ Shutdown) r →
    let s' := fst (mainloop resync r s) in
    snd (mainloop resync r s) = None
    ∧ storage_open s' = storage_open s ∧ cancelled s' = cancelled s
    ∧ listener s' = listener s ∧ validator s' = validator s.
Proof.
  induction r as [|c r IH]; intros s Hr; simpl; [done|].
  apply Forall_cons in Hr as [[Hc1 Hc2] Hr].
  destruct (handle_no_stop resync c s Hc1 Hc2) as (Hbrk & Ho & Hc & Hl & Hv).
  destruct (handle resync c s) as [s1 brk]. simpl in *. subst brk. simpl.
  destruct (IH s1 Hr) as (Hn & Ho' & Hc' & Hl' & Hv').
  repeat split; congruence.
Qed.

Lemma mainloop_waits_witness :
  let s := new_service (Service.mkConfig true false) (fresh no_faults) in
  let st := mkStatus Running 7 in
  snd (mainloop id [mkChangeRequest Pause st; mkChangeRequest Interrogate st;
                    mkChangeRequest (OtherCmd 42) st] s) = None.
Proof.
  cbv zeta.
  refine (proj1 (mainloop_waits id _ _ _)).
  repeat constructor; discriminate.
Defined.

(** X17.  The control loop changes the session manager and the repositories by
    nothing but the resynchronisation of a Continue request: over requests
    without a Continue (Stop and Shutdown included) the session state at the
    end is the one at the start. *)
Theorem mainloop_keeps_sessions (resync : World -> World) (r : list ChangeRequest) :
  ∀ s : timekeepService,
    Forall (λ c, Command c ≠ Continue) r →
    sessions (fst (mainloop resync r s)) = sessions s.
Proof.
  induction r as [|c r IH]; intros s Hr; simpl; [done|].
  apply Forall_cons in Hr as [Hc Hr].
  assert (Hs : sessions (fst (handle resync c s)) = sessions s).
  { unfold handle. destruct (Command c); try done; simpl.
    destruct (WakaTime_Enabled (config s)); done. }
  destruct (handle resync c s) as [s1 brk]. simpl in Hs.
  destruct brk; simpl; [done|]. rewrite IH by done. done.
Qed.

Lemma mainloop_keeps_sessions_witness :
  let w := browser_open no_faults in
  let s := new_service (Service.mkConfig true true) w in
  let st := mkStatus Running 7 in
  sessions (fst (mainloop (fun _ => fresh no_faults)
                   [mkChangeRequest Pause st; mkChangeRequest Interrogate st;
                    mkChangeRequest Shutdown st] s)) = w.
Proof.
  cbv zeta.
  refine (mainloop_keeps_sessions _ _ _ _).
  repeat constructor; discriminate.
Defined.

(** *** The Linux daemon *)

(** X18.  [Manage] with a command on the command line does not run the service: it
    seeds no program and starts no task, whatever the command; a command
    that is none of install, remove, start, stop and status gets the usage
    line and no error. *)
Theorem Manage_command (Install Remove Start Stop Status : string * option error)
    (program command : string) (rest : list string)
    (catalog : result (list Program)) (s : timekeepService) :
  let m := Daemon.Manage Install Remove Start Stop Status
             (program :: command :: rest) catalog s in
  Daemon.service m = s
  ∧ Daemon.manage_log m = [Daemon.InfoStartingManage]
  ∧ (command ∉ ["install"; "remove"; "start"; "stop"; "status"] →
     Daemon.answer m = Daemon.usage ∧ Daemon.failure m = None).
Proof.
  unfold Daemon.Manage.
  repeat case_decide; subst;
    try (match goal with |- context [let (_, _) := ?x in _] => destruct x end);
    simpl; (split; [done|]); (split; [done|]); intros Hnot; try done;
    exfalso; apply Hnot; set_solver.
Qed.

Lemma Manage_command_witness :
  let m := Daemon.Manage ("installed", None) ("removed", None) ("started", None)
             ("stopped", None) ("running", None)
             ["timekeepd"; "restart"] (Ok [])
             (new_service (Service.mkConfig true true) (fresh no_faults)) in
  Daemon.answer m = Daemon.usage ∧ Daemon.failure m = None.
Proof.
  cbv zeta.
  refine (proj2 (proj2 (Manage_command _ _ _ _ _ "timekeepd" "restart" [] _ _)) _).
  intros Hin. repeat (apply elem_of_cons in Hin as [Hin|Hin]; [discriminate|]).
  by apply elem_of_nil in Hin.
Defined.

(** X19.  [Manage] without a command, when the catalog cannot be read, returns the
    error of the read with its message and has started nothing. *)
Theorem Manage_catalog_failure
    (Install Remove Start Stop Status : string * option error)
    (args : list string) (e : error) (s : timekeepService) :
  (length args ≤ 1)%nat →
  let m := Daemon.Manage Install Remove Start Stop Status args (Err e) s in
  Daemon.service m = s
  ∧ Daemon.answer m = "ERROR: Failed to get programs"
  ∧ Daemon.failure m = Some e.
Proof.
  intros Hlen. unfold Daemon.Manage.
  destruct args as [|a [|b args]]; simpl in *; try done. lia.
Qed.

Lemma Manage_catalog_failure_witness :
  Daemon.failure
    (Daemon.Manage ("", None) ("", None) ("", None) ("", None) ("", None)
       ["timekeepd"] (Err ErrStorage)
       (new_service (Service.mkConfig false false) (fresh no_faults)))
  = Some ErrStorage.
Proof.
  refine (proj2 (proj2 (Manage_catalog_failure _ _ _ _ _ ["timekeepd"] _ _ _))).
  simpl. lia.
Defined.

(** * Properties of the integration settings *)

Ltac split_ifs :=
  repeat (match goal with
          | |- context [if ?b then _ else _] =>
              match type of b with
              | bool => destruct b eqn:?
              | _ => destruct b
              end; simpl in *
          end).

Ltac solve_ready :=
  unfold CLI.ready in *; simpl in *;
  split; intros; try discriminate; subst; simpl in *;
  repeat match goal with
         | H : ?x = ?x → _ |- _ => specialize (H eq_refl)
         | H : ?P → _, H' : ?P |- _ => specialize (H H')
         end;
  destruct_and?; try (split; done); auto.

Lemma run_ready (save_fails : CLI.Config -> bool) (c : CLI.Command)
    (s : CLI.CLIService) :
  CLI.ready (CLI.Config_ s) → Forall CLI.ready (CLI.saved s) →
  CLI.ready (CLI.Config_ (fst (CLI.run save_fails c s)))
  ∧ Forall CLI.ready (CLI.saved (fst (CLI.run save_fails c s))).
Proof.
  intros Hready Hsaved.
  destruct s as [cfg sv]. destruct cfg. simpl in *.
  destruct c; simpl;
    unfold CLI.EnableWakaTime, CLI.DisableWakaTime, CLI.EnableWakapi,
      CLI.DisableWakapi, CLI.SetConfig, CLI.saveAndNotify, CLI.set_Config;
    simpl; split_ifs;
    (split;
     [ destruct Hready; solve_ready
     | first
         [ exact Hsaved
         | apply Forall_app; split; [exact Hsaved|];
           apply Forall_singleton; destruct Hready; solve_ready ] ]).
Qed.

(** X20.  An enabled integration always has what it needs.  When the configuration
    is ready (WakaTime enabled only with an API key and a CLI path, Wakapi
    only with an API key and a server), it is still ready after any sequence
    of enable, disable and set-config commands, whether the saves succeed or
    not, and so is every configuration that was handed to [saveAndNotify]. *)
Theorem integrations_stay_ready (save_fails : CLI.Config -> bool)
    (cs : list CLI.Command) :
  ∀ s : CLI.CLIService,
    CLI.ready (CLI.Config_ s) → Forall CLI.ready (CLI.saved s) →
    CLI.ready (CLI.Config_ (CLI.run_all save_fails cs s))
    ∧ Forall CLI.ready (CLI.saved (CLI.run_all save_fails cs s)).
Proof.
  induction cs as [|c cs IH]; intros s Hr Hs; simpl; [done|].
  destruct (run_ready save_fails c s Hr Hs) as [Hr' Hs'].
  by apply IH.
Qed.

Lemma integrations_stay_ready_witness :
  let s := CLI.mkCLIService (CLI.mkConfig false "" "" "" false "" "" "" "1s" 3) [] in
  let s' := CLI.run_all (fun _ => false)
              [CLI.CmdEnableWakaTime "key" "";
               CLI.CmdSetConfig "/usr/bin/wakatime-cli" "" "" "" 3;
               CLI.CmdEnableWakaTime "" ""] s in
  CLI.WakaTime_Enabled (CLI.Config_ s') = true ∧ CLI.ready (CLI.Config_ s').
Proof.
  cbv zeta. split; [reflexivity|].
  refine (proj1 (integrations_stay_ready (fun _ => false) _ _ _ _)).
  - split; simpl; discriminate.
  - constructor.
Defined.

(** X21.  What [EnableWakaTime] answers.  No error: the integration is enabled.
    A missing API key or CLI path: the integration stays disabled and
    nothing is saved (an API key that was passed is kept in memory all the
    same).  A failed save: the integration is already enabled in memory. *)
Theorem EnableWakaTime_outcome (save_fails : CLI.Config -> bool)
    (apiKey path : string) (s : CLI.CLIService) :
  let s' := fst (CLI.EnableWakaTime save_fails apiKey path s) in
  match snd (CLI.EnableWakaTime save_fails apiKey path s) with
  | None => CLI.WakaTime_Enabled (CLI.Config_ s') = true
  | Some CLI.SaveFailed =>
      CLI.WakaTime_Enabled (CLI.Config_ s') = true
      ∧ CLI.saved s' = CLI.saved s ++ [CLI.Config_ s']
  | Some CLI.WakaTimeKeyRequired =>
      apiKey = "" ∧ s' = s ∧ CLI.WakaTime_Enabled (CLI.Config_ s) = false
  | Some CLI.CLIPathRequired =>
      CLI.WakaTime_Enabled (CLI.Config_ s') = false
      ∧ CLI.saved s' = CLI.saved s
      ∧ path = "" ∧ CLI.WakaTime_CLIPath (CLI.Config_ s) = ""
      ∧ (apiKey ≠ "" → CLI.WakaTime_APIKey (CLI.Config_ s') = apiKey)
  | Some _ => False
  end.
Proof.
  destruct s as [cfg sv]. destruct cfg. simpl.
  unfold CLI.EnableWakaTime, CLI.saveAndNotify, CLI.set_Config. simpl.
  repeat (match goal with
          | |- context [if ?b then _ else _] =>
              match type of b with
              | bool => destruct b eqn:?
              | _ => destruct b
              end; simpl in *
          end); subst; try done;
    repeat match goal with H : ¬ _ ≠ _ |- _ => apply dec_stable in H end;
    subst; try done.
Qed.

(** X22.  Switching WakaTime off and on again, without passing a key or a path,
    gives the configuration back as it was: the key and the path are kept
    while the integration is disabled. *)
Theorem disable_enable_WakaTime (save_fails : CLI.Config -> bool)
    (s : CLI.CLIService) :
  CLI.WakaTime_Enabled (CLI.Config_ s) = true →
  CLI.WakaTime_APIKey (CLI.Config_ s) ≠ "" →
  CLI.WakaTime_CLIPath (CLI.Config_ s) ≠ "" →
  CLI.Config_ (fst (CLI.EnableWakaTime save_fails "" ""
                      (fst (CLI.DisableWakaTime save_fails s))))
  = CLI.Config_ s.
Proof.
  destruct s as [cfg sv]. destruct cfg. simpl. intros -> Hk Hp.
  unfold CLI.DisableWakaTime, CLI.EnableWakaTime, CLI.saveAndNotify,
    CLI.set_Config. simpl.
  rewrite decide_False by done. simpl.
  rewrite decide_False by done. reflexivity.
Qed.

Lemma disable_enable_WakaTime_witness :
  let s := CLI.mkCLIService
             (CLI.mkConfig true "key" "/usr/bin/wakatime-cli" "" false "" "" "" "1s" 3)
             [] in
  CLI.Config_ (fst (CLI.EnableWakaTime (fun _ => true) "" ""
                      (fst (CLI.DisableWakaTime (fun _ => true) s))))
  = CLI.Config_ s.
Proof.
  cbv zeta.
  refine (disable_enable_WakaTime (fun _ => true) _ _ _ _);
    [reflexivity | discriminate | discriminate].
Defined.

(** X23.  [SetConfig] sets, never clears: an empty argument leaves its setting as
    it is.  The poll grace becomes the given value unless that is negative
    or 3 (the value the flag has when it is not given), so it cannot be set
    back to 3 once it is something else.  The enabled flags and the API keys
    are not touched, and the configuration is handed to [saveAndNotify]
    once. *)
Theorem SetConfig_effect (save_fails : CLI.Config -> bool)
    (cliPath server project interval : string) (grace : Z) (s : CLI.CLIService) :
  let c := CLI.Config_ s in
  let s' := fst (CLI.SetConfig save_fails cliPath server project interval grace s) in
  let c' := CLI.Config_ s' in
  CLI.PollGrace c' = (if decide (grace ≠ 3 ∧ (0 <= grace)%Z) then grace else CLI.PollGrace c)
  ∧ (CLI.PollGrace c' = 3 → CLI.PollGrace c = 3)
  ∧ CLI.WakaTime_CLIPath c' = (if decide (cliPath = "") then CLI.WakaTime_CLIPath c else cliPath)
  ∧ CLI.Wakapi_Server c' = (if decide (server = "") then CLI.Wakapi_Server c else server)
  ∧ CLI.PollInterval c' = (if decide (interval = "") then CLI.PollInterval c else interval)
  ∧ CLI.WakaTime_GlobalProject c'
    = (if decide (project = "") then CLI.WakaTime_GlobalProject c else project)
  ∧ CLI.Wakapi_GlobalProject c'
    = (if decide (project = "") then CLI.Wakapi_GlobalProject c else project)
  ∧ CLI.WakaTime_Enabled c' = CLI.WakaTime_Enabled c
  ∧ CLI.Wakapi_Enabled c' = CLI.Wakapi_Enabled c
  ∧ CLI.WakaTime_APIKey c' = CLI.WakaTime_APIKey c
  ∧ CLI.Wakapi_APIKey c' = CLI.Wakapi_APIKey c
  ∧ CLI.saved s' = CLI.saved s ++ [c'].
Proof.
  destruct s as [cfg sv]. destruct cfg. simpl.
  unfold CLI.SetConfig, CLI.saveAndNotify, CLI.set_Config. simpl.
  repeat case_decide; simpl; repeat split; try done; try lia;
    repeat match goal with H : ¬ _ ≠ _ |- _ => apply dec_stable in H end;
    subst; try done; try lia.
Qed.

(** * The Windows probe and the width of a PID *)

(** X24.  The Windows probe converts the PID to 32 bits before it asks the
    system: two PIDs that differ by a multiple of 2^32 get the same answer. *)
Theorem windows_probe_low_32_bits (Handle : Type)
    (OpenProcess : Z -> bool -> Z -> Handle + Z)
    (GetExitCodeProcess : Handle -> Z + Z) (pid k : Z) :
  Probe.isProcessRunning_windows Handle OpenProcess GetExitCodeProcess
    (pid + k * 2 ^ 32)
  = Probe.isProcessRunning_windows Handle OpenProcess GetExitCodeProcess pid.
Proof.
  unfold Probe.isProcessRunning_windows, Probe.uint32.
  by rewrite Z_mod_plus_full.
Qed.

(** * Sample runs of the seeding and of the settings *)

Lemma seed_catalog_witness :
  let programs := [mkProgram "Browser" (mkNullString "web" true)
                     (mkNullString "" false)] in
  let w := browser_open no_faults in
  Programs w !! "browser" = Some (mkTracked "" "" {[5]} 0 0)
  ∧ fst (seed programs [] w) = ["Browser"]
  ∧ ∃ t', Programs (snd (seed programs [] w)) !! "browser" = Some t'
          ∧ PIDs t' = {[5]}.
Proof.
  cbv zeta.
  assert (Ht : Programs (browser_open no_faults) !! "browser"
               = Some (mkTracked "" "" {[5]} 0 0)) by (vm_compute; reflexivity).
  destruct (seed_catalog
              [mkProgram "Browser" (mkNullString "web" true) (mkNullString "" false)]
              (browser_open no_faults)) as (Hn & _ & Hkeep & _).
  split; [exact Ht | split; [exact Hn|]].
  destruct (Hkeep "browser" _ Ht) as (t' & Ht' & HP & _).
  exists t'. split; [exact Ht' | exact HP].
Defined.

Lemma SetConfig_effect_witness :
  let s := CLI.mkCLIService
             (CLI.mkConfig false "" "" "" false "" "" "" "1s" 3) [] in
  let s' := fst (CLI.SetConfig (fun _ => false) "" "" "" "2s" (-1) s) in
  CLI.PollGrace (CLI.Config_ s') = 3
  ∧ CLI.PollGrace (CLI.Config_ s) = 3
  ∧ CLI.PollInterval (CLI.Config_ s') = "2s".
Proof.
  cbv zeta.
  destruct (SetConfig_effect (fun _ => false) "" "" "" "2s" (-1)
              (CLI.mkCLIService
                 (CLI.mkConfig false "" "" "" false "" "" "" "1s" 3) []))
    as (_ & Hback & _ & _ & Hint & _).
  split; [reflexivity | split; [apply Hback; reflexivity | exact Hint]].
Defined.
